(** * Transposed-convolution layers: a shallow embedding of
      [layer/convolution_transpose.py]

    The module defines two layer classes, [ConvTransLayer] (one learned
    kernel, an optional bias, one call of [tf.nn.conv3d_transpose]) and
    [ConvolutionalTransposeLayer] (the former followed by optional batch
    normalisation, activation and dropout).

    The Python code builds a TensorFlow graph.  The embedding keeps that
    reading: a tensor handle is a term recording the operator that produced
    it together with the arguments the layer handed over, the variables
    created through [tf.get_variable] are kept in an explicit store, and
    Python exceptions are the error side of a result type.  The [numpy]
    helpers that compute the kernel shape and the strides run eagerly in
    Python and are modelled on their values. *)

From Stdlib Require Import ZArith List String Ascii Bool QArith Lia.
Import ListNotations.

Local Open Scope string_scope.
Local Open Scope list_scope.
Local Open Scope Z_scope.

Set Implicit Arguments.

(* ================================================================== *)
(** ** Python values used by the layers *)

(** Exceptions, named after the place that raises them. *)
Inductive PyError : Type :=
| LookupFailed (type_str : string)   (* look_up_operations: ValueError *)
| IndexError                         (* input_shape[-1] on an empty list *)
| VStackError                        (* np.vstack / np.concatenate: ValueError *)
| FrameworkError (op : string)       (* raised by a TensorFlow call *)
| CollaboratorError (layer : string) (* raised by BNLayer / ActiLayer *).

Inductive result (A : Type) : Type :=
| Ok (a : A)
| Raise (e : PyError).

Arguments Ok {A} a.
Arguments Raise {A} e.

Definition is_ok {A} (r : result A) : bool :=
  match r with Ok _ => true | Raise _ => false end.

(** [kernel_size] and [stride] are documented as "int or per-axis
    sequence". *)
Inductive IntOrSeq : Type :=
| Scalar (z : Z)
| Sequence (l : list Z).

(** Initialisers and regularisers are function objects that the layers only
    store and pass on; they are represented by what identifies them. *)
Inductive Initializer : Type :=
| default_w_initializer   (* truncated normal, stddev sqrt(2/prod(shape[:-1])) *)
| default_b_initializer   (* tf.constant_initializer(0.0) *)
| UserInitializer (id : string).

Inductive Regularizer : Type :=
| UserRegularizer (id : string).

(** Python floats ([moving_decay], [eps], [keep_prob]) are only passed on
    to collaborators, never computed with; rationals stand for them. *)
Definition float : Type := Q.

(* ================================================================== *)
(** ** Strings: [str.upper] and set membership *)

Module Str.

(** [c.upper()] on one character: the letters a to z are shifted to A to
    Z, every other character is kept.  Strings are taken to be ASCII. *)
Definition upper_ascii (c : ascii) : ascii :=
  let n := nat_of_ascii c in
  if (Nat.leb 97 n && Nat.leb n 122)%bool then ascii_of_nat (n - 32) else c.

(** [s.upper()]. *)
Fixpoint upper (s : string) : string :=
  match s with
  | EmptyString => EmptyString
  | String c s' => String (upper_ascii c) (upper s')
  end.

(** [s in supported] for a set of strings given by its elements. *)
Fixpoint mem (s : string) (supported : list string) : bool :=
  match supported with
  | [] => false
  | x :: xs => if String.eqb s x then true else mem s xs
  end.

End Str.

(* ================================================================== *)
(** ** The numpy helpers, on the values the layers feed them *)

Module np.

(** A one-dimensional integer array is the list of its entries, a
    two-dimensional one the list of its rows. *)
Definition array1 : Type := list Z.
Definition array2 : Type := list (list Z).

(** [np.asarray(v).flatten()] for [v] an int or a sequence of ints. *)
Definition asarray_flatten (v : IntOrSeq) : array1 :=
  match v with
  | Scalar z => [z]
  | Sequence l => l
  end.

(** Python's [[a] * n] for an int [n]: empty when [n <= 0]. *)
Definition py_repeat {A} (a : A) (n : Z) : list A := repeat a (Z.to_nat n).

(** The arguments [np.vstack] receives in this module. *)
Inductive vstack_arg : Type :=
| ArgScalar (z : Z)                 (* a Python int *)
| ArgArray (a : array1)             (* a one-dimensional array *)
| ArgList (rows : list array1)      (* a Python list of one-dimensional arrays *).

(** [np.atleast_2d]: a scalar becomes a 1x1 array, a one-dimensional array
    of length L one row of length L; a list of n >= 1 arrays of length L
    is already the n x L array, and the empty list is the array of shape
    (0,), which becomes one row of length 0. *)
Definition atleast_2d (a : vstack_arg) : array2 :=
  match a with
  | ArgScalar z => [[z]]
  | ArgArray r => [r]
  | ArgList [] => [[]]
  | ArgList rows => rows
  end.

Definition ncols (a : array2) : nat :=
  match a with
  | [] => 0%nat
  | r :: _ => List.length r
  end.

(** [np.concatenate(blocks, 0)]: needs at least one block, and all blocks
    must agree on the number of columns. *)
Definition concatenate0 (blocks : list array2) : result array2 :=
  match blocks with
  | [] => Raise VStackError
  | b :: bs =>
      if forallb (fun b' => Nat.eqb (ncols b') (ncols b)) bs
      then Ok (List.concat blocks)
      else Raise VStackError
  end.

(** [np.vstack(tup)] is [np.concatenate(np.atleast_2d( *tup ), 0)]. *)
Definition vstack (tup : list vstack_arg) : result array2 :=
  concatenate0 (map atleast_2d tup).

(** [a.flatten()] of a two-dimensional array, row by row. *)
Definition flatten (a : array2) : array1 := List.concat a.

End np.

(* ================================================================== *)
(** ** The graph under construction *)

(** The two-key dictionaries [{'w': ..., 'b': ...}] of the layers. *)
Record wb_dict (A : Type) : Type := mk_wb { at_w : A; at_b : A }.

(** A variable created by [tf.get_variable]: its name with the enclosing
    scopes (outermost first), its shape, initialiser and regulariser. *)
Record VariableRec : Type := mk_var {
  var_name : list string;
  var_shape : list Z;
  var_initializer : Initializer;
  var_regularizer : option Regularizer
}.

(** Modelled from the spec: the normalisation collaborator [BNLayer]
    (layer/bn.py is not part of the sources).  Only the arguments this
    module hands to its constructor are recorded. *)
Record BNLayer : Type := mk_BNLayer {
  bn_regularizer : option Regularizer;
  bn_moving_decay : float;
  bn_eps : float;
  bn_name : string
}.

(** Modelled from the spec: the activation collaborator [ActiLayer]
    (layer/activation.py is not part of the sources); it also implements
    dropout.  [al_regularizer] is [None] when the argument is left out. *)
Record ActiLayer : Type := mk_ActiLayer {
  al_func : string;
  al_regularizer : option Regularizer;
  al_name : string
}.

(** Tensor handles: the operator that produced the handle, with its
    arguments. *)
Inductive Tensor : Type :=
| Placeholder (name : string) (shape : list Z)
| ReadVariable (v : VariableRec)
| Conv3DTranspose (value filter : Tensor) (output_shape strides : list Z)
                  (padding name : string)
| BiasAdd (value bias : Tensor) (name : string)
| BNOp (layer : BNLayer) (value : Tensor) (is_training : option bool)
| ActiOp (layer : ActiLayer) (value : Tensor) (keep_prob : option float).

(** [t.get_shape().as_list()], for fully defined static shapes.  The
    transposed convolution takes its static shape from the [output_shape]
    argument; bias addition, normalisation, activation and dropout keep the
    shape of their input. *)
Fixpoint get_shape (t : Tensor) : list Z :=
  match t with
  | Placeholder _ shape => shape
  | ReadVariable v => var_shape v
  | Conv3DTranspose _ _ output_shape _ _ _ => output_shape
  | BiasAdd value _ _ => get_shape value
  | BNOp _ value _ => get_shape value
  | ActiOp _ value _ => get_shape value
  end.

(** The state threaded through graph construction: the current variable
    scope and the variables created so far, oldest first. *)
Record Graph : Type := mk_graph {
  scope : list string;
  variables : list VariableRec
}.

Definition empty_graph : Graph := mk_graph [] [].

(** Graph-building computations: state passing with exceptions. *)
Definition M (A : Type) : Type := Graph -> result (A * Graph).

Definition ret {A} (a : A) : M A := fun g => Ok (a, g).

Definition raise {A} (e : PyError) : M A := fun _ => Raise e.

Definition bind {A B} (m : M A) (k : A -> M B) : M B :=
  fun g => match m g with
           | Ok (a, g') => k a g'
           | Raise e => Raise e
           end.

Definition lift {A} (r : result A) : M A :=
  fun g => match r with
           | Ok a => Ok (a, g)
           | Raise e => Raise e
           end.

Declare Scope graph_scope.
Delimit Scope graph_scope with graph.
Notation "x <- m ;; k" := (bind m (fun x => k))
  (at level 100, m at next level, right associativity) : graph_scope.
Local Open Scope graph_scope.

(* ================================================================== *)
(** ** The TensorFlow calls made by the layers *)

Module tf.

Fixpoint path_eqb (p q : list string) : bool :=
  match p, q with
  | [], [] => true
  | a :: p', b :: q' => String.eqb a b && path_eqb p' q'
  | _, _ => false
  end.

Fixpoint shape_eqb (s t : list Z) : bool :=
  match s, t with
  | [], [] => true
  | a :: s', b :: t' => Z.eqb a b && shape_eqb s' t'
  | _, _ => false
  end.

Definition lookup_variable (full : list string) (g : Graph) : option VariableRec :=
  find (fun v => path_eqb (var_name v) full) (variables g).

(** [tf.get_variable(name, shape=..., initializer=..., regularizer=...)]
    inside a template scope: a negative dimension is rejected; the first
    request for a name creates the variable, a later request for the same
    name gets the existing variable back, provided the shapes agree. *)
Definition get_variable (name : string) (shape : list Z)
           (initializer : Initializer) (regularizer : option Regularizer)
  : M Tensor :=
  fun g =>
    if existsb (fun d => d <? 0) shape
    then Raise (FrameworkError "get_variable")
    else
      let full := scope g ++ [name] in
      match lookup_variable full g with
      | Some v =>
          if shape_eqb (var_shape v) shape
          then Ok (ReadVariable v, g)
          else Raise (FrameworkError "get_variable")
      | None =>
          let v := mk_var full shape initializer regularizer in
          Ok (ReadVariable v, mk_graph (scope g) (variables g ++ [v]))
      end.

Definition SUPPORTED_PADDING : list string := ["VALID"; "SAME"].

(** [tf.nn.conv3d_transpose(value, filter, output_shape, strides,
    padding, name)], the checks made while the node is added to the
    graph (TensorFlow 1.x, nn_ops.py and the operator's registration):
    the channel entries with index 4 of [value] and [filter] exist and
    agree, [output_shape] has five entries, the entry with index 3 of
    [filter] equals the last entry of [output_shape], the padding is
    VALID or SAME, and [strides] has at least five entries.  The handle
    returned has the static shape [output_shape]. *)
Definition conv3d_transpose (value filter : Tensor)
           (output_shape strides : list Z) (padding name : string)
  : result Tensor :=
  let err := Raise (FrameworkError "conv3d_transpose") in
  match nth_error (get_shape value) 4, nth_error (get_shape filter) 4 with
  | Some cv, Some cf =>
      if negb (cv =? cf) then err
      else if negb (Nat.eqb (List.length output_shape) 5) then err
      else match nth_error (get_shape filter) 3, nth_error output_shape 4 with
           | Some fo, Some oo =>
               if negb (fo =? oo) then err
               else if negb (Str.mem padding SUPPORTED_PADDING) then err
               else if Nat.ltb (List.length strides) 5 then err
               else Ok (Conv3DTranspose value filter output_shape strides
                                        padding name)
           | _, _ => err
           end
  | _, _ => err
  end.

(** [tf.nn.bias_add(value, bias, name)]: [bias] is one-dimensional,
    [value] has at least two dimensions, and the size of [bias] is the
    last dimension of [value]. *)
Definition bias_add (value bias : Tensor) (name : string) : result Tensor :=
  match get_shape bias with
  | [n] =>
      if Nat.ltb (List.length (get_shape value)) 2
      then Raise (FrameworkError "bias_add")
      else if last (get_shape value) (-1) =? n
           then Ok (BiasAdd value bias name)
           else Raise (FrameworkError "bias_add")
  | _ => Raise (FrameworkError "bias_add")
  end.

(** The size rule of the forward convolution that the transposed
    convolution inverts (TensorFlow's windowed output size):
    ceil(n / stride) for SAME, ceil((n - k + 1) / stride) for VALID. *)
Definition conv_output_length (n k stride : Z) (padding : string) : Z :=
  if String.eqb padding "SAME"
  then (n + stride - 1) / stride
  else (n - k + stride) / stride.

(** A transposed convolution can be evaluated only when the forward
    convolution maps every requested spatial output length back to the
    corresponding spatial length of [value], with one stride per
    dimension and stride 1 on the batch and channel dimensions. *)
Fixpoint lengths_consistent (ins outs ks ss : list Z) (padding : string) : bool :=
  match ins, outs, ks, ss with
  | [], [], [], [] => true
  | i :: ins', o :: outs', k :: ks', s :: ss' =>
      (0 <? s) && (conv_output_length o k s padding =? i)
      && lengths_consistent ins' outs' ks' ss' padding
  | _, _, _, _ => false
  end.

Definition spatial (shape : list Z) : list Z :=
  removelast (tl shape).

Definition runnable (t : Tensor) : bool :=
  match t with
  | Conv3DTranspose value filter output_shape strides padding _ =>
      Nat.eqb (List.length strides) 5
      && (hd 0 strides =? 1) && (last strides 0 =? 1)
      && (hd 0 (get_shape value) =? hd 0 output_shape)
      && lengths_consistent (spatial (get_shape value)) (spatial output_shape)
                            (firstn 3 (get_shape filter)) (spatial strides)
                            padding
  | _ => true
  end.

End tf.

(* ================================================================== *)
(** ** Repository helpers that are not part of the sources *)

(** Modelled from the spec: [utilities.misc_common.look_up_operations]
    (not part of the sources), on a set of supported strings: a member is
    returned as it is, anything else is an error ("padding mode must be a
    member of {SAME, VALID}; violating this fails fast"). *)
Definition look_up_operations (type_str : string) (supported : list string)
  : result string :=
  if Str.mem type_str supported then Ok type_str
  else Raise (LookupFailed type_str).

(** Modelled from the spec: [layer_util.infer_spatial_rank] (not part of
    the sources): the input is batch x spatial dims x channels, so the
    spatial rank is the rank less two. *)
Definition infer_spatial_rank (input_tensor : Tensor) : Z :=
  Z.of_nat (List.length (get_shape input_tensor)) - 2.

(** Modelled from the spec: [TrainableLayer.__call__] of
    layer/base_layer.py (not part of the sources) runs the layer's
    [layer_op] inside the variable scope named after the layer. *)
Definition in_scope {A} (name : string) (body : M A) : M A :=
  fun g =>
    match body (mk_graph (scope g ++ [name]) (variables g)) with
    | Ok (a, g') => Ok (a, mk_graph (scope g) (variables g'))
    | Raise e => Raise e
    end.

Definition SUPPORTED_PADDING : list string := ["SAME"; "VALID"].

(** [l[-1] = v] on a Python list; an [IndexError] on the empty list. *)
Definition set_last (l : list Z) (v : Z) : result (list Z) :=
  match l with
  | [] => Raise IndexError
  | _ => Ok (removelast l ++ [v])
  end.

(** [l[-1]]. *)
Definition get_last (l : list Z) : result Z :=
  match l with
  | [] => Raise IndexError
  | _ => Ok (last l 0)
  end.

(* ================================================================== *)
(** ** class ConvTransLayer *)

Module ConvTransLayer.

Record t : Type := mk {
  name : string;
  padding : string;
  n_output_chns : Z;
  kernel_size : np.array1;
  stride : np.array1;
  with_bias : bool;
  initializers : wb_dict Initializer;
  regularizers : wb_dict (option Regularizer)
}.

(** [x if x else default] for an initialiser argument that is a function
    object or [None]. *)
Definition or_default (x : option Initializer) (d : Initializer) : Initializer :=
  match x with
  | Some i => i
  | None => d
  end.

Definition __init__ (n_output_chns : Z) (kernel_size stride : IntOrSeq)
           (padding : string) (with_bias : bool)
           (w_initializer : option Initializer)
           (w_regularizer : option Regularizer)
           (b_initializer : option Initializer)
           (b_regularizer : option Regularizer)
           (name : string) : result t :=
  match look_up_operations (Str.upper padding) SUPPORTED_PADDING with
  | Raise e => Raise e
  | Ok padding' =>
      Ok {| name := name;
            padding := padding';
            n_output_chns := n_output_chns;
            kernel_size := np.asarray_flatten kernel_size;
            stride := np.asarray_flatten stride;
            with_bias := with_bias;
            initializers :=
              mk_wb (or_default w_initializer default_w_initializer)
                    (or_default b_initializer default_b_initializer);
            regularizers := mk_wb w_regularizer b_regularizer |}
  end.

(** The defaults of the keyword arguments. *)
Definition default_kernel_size : IntOrSeq := Scalar 3.
Definition default_stride : IntOrSeq := Scalar 1.
Definition default_padding : string := "SAME".
Definition default_name : string := "conv".

(** The local [w_full_size] of [layer_op]. *)
Definition w_full_size (self : t) (input_tensor : Tensor) : result (list Z) :=
  match get_last (get_shape input_tensor) with
  | Raise e => Raise e
  | Ok n_input_chns =>
      let spatial_rank := infer_spatial_rank input_tensor in
      match np.vstack [np.ArgList (np.py_repeat (kernel_size self) spatial_rank);
                       np.ArgScalar (n_output_chns self);
                       np.ArgScalar n_input_chns] with
      | Raise e => Raise e
      | Ok a => Ok (np.flatten a)
      end
  end.

(** The local [full_stride] of [layer_op]. *)
Definition full_stride (self : t) (input_tensor : Tensor) : result (list Z) :=
  let spatial_rank := infer_spatial_rank input_tensor in
  match np.vstack (map np.ArgArray (np.py_repeat (stride self) spatial_rank)) with
  | Raise e => Raise e
  | Ok a => Ok (np.flatten a)
  end.

(** The local [output_shape] of [layer_op]: the input shape with its last
    entry overwritten. *)
Definition output_shape (self : t) (input_tensor : Tensor) : result (list Z) :=
  set_last (get_shape input_tensor) (n_output_chns self).

(** The [strides] argument handed to the operator. *)
Definition conv_strides (self : t) (input_tensor : Tensor) : result (list Z) :=
  match full_stride self input_tensor with
  | Raise e => Raise e
  | Ok fs => Ok ([1] ++ fs ++ [1])
  end.

Definition layer_op (self : t) (input_tensor : Tensor) : M Tensor :=
  w_full_size <- lift (w_full_size self input_tensor) ;;
  strides <- lift (conv_strides self input_tensor) ;;
  conv_kernel <- tf.get_variable "w" w_full_size
                   (at_w (initializers self)) (at_w (regularizers self)) ;;
  output_shape <- lift (output_shape self input_tensor) ;;
  output_tensor <- lift (tf.conv3d_transpose input_tensor conv_kernel
                           output_shape strides (padding self) "conv_trans") ;;
  if negb (with_bias self) then ret output_tensor
  else
    (* shape=self.n_output_chns, an int, is the shape [n_output_chns] *)
    bias_term <- tf.get_variable "b" [n_output_chns self]
                   (at_b (initializers self)) (at_b (regularizers self)) ;;
    lift (tf.bias_add output_tensor bias_term "add_bias").

Definition __call__ (self : t) (input_tensor : Tensor) : M Tensor :=
  in_scope (name self) (layer_op self input_tensor).

End ConvTransLayer.

(* ================================================================== *)
(** ** The collaborators of the composite layer *)

(** Modelled from the spec: calling the normalisation layer on a tensor
    with the training flag gives a tensor of the same shape.  The variables
    the collaborator creates for itself are not part of the store kept
    here. *)
Definition BNLayer_call (layer : BNLayer) (input_tensor : Tensor)
           (is_training : option bool) : M Tensor :=
  in_scope (bn_name layer) (ret (BNOp layer input_tensor is_training)).

(** Modelled from the spec: calling the activation layer, with the
    keep-probability when it acts as dropout.  The collaborator "supports a
    fixed catalog of function names" and raises for any other name; the
    spec does not list the catalogue, so it is the parameter
    [SUPPORTED_OP]. *)
Definition ActiLayer_call (SUPPORTED_OP : string -> bool)
           (layer : ActiLayer) (input_tensor : Tensor)
           (keep_prob : option float) : M Tensor :=
  in_scope (al_name layer)
    (if SUPPORTED_OP (al_func layer)
     then ret (ActiOp layer input_tensor keep_prob)
     else raise (CollaboratorError "ActiLayer")).

(* ================================================================== *)
(** ** class ConvolutionalTransposeLayer *)

Module ConvolutionalTransposeLayer.

Record t : Type := mk {
  acti_func : option string;
  with_bn : bool;
  layer_name : string;
  n_output_chns : Z;
  kernel_size : IntOrSeq;
  stride : IntOrSeq;
  padding : string;
  with_bias : bool;
  moving_decay : float;
  eps : float;
  initializers : wb_dict Initializer;
  regularizers : wb_dict (option Regularizer)
}.

(** The name built in the constructor: [name], then "_bn" when
    normalisation is on, then "_" and the activation name when there is
    one. *)
Definition make_layer_name (name : string) (with_bn : bool)
           (acti_func : option string) : string :=
  let n1 := if with_bn then (name ++ "_bn")%string else name in
  match acti_func with
  | Some f => (n1 ++ "_" ++ f)%string
  | None => n1
  end.

(** The constructor stores every argument; nothing is looked up or
    checked, so no path of it raises. *)
Definition __init__ (n_output_chns : Z) (kernel_size stride : IntOrSeq)
           (padding : string) (with_bias with_bn : bool)
           (acti_func : option string)
           (w_initializer : option Initializer)
           (w_regularizer : option Regularizer)
           (b_initializer : option Initializer)
           (b_regularizer : option Regularizer)
           (moving_decay eps : float) (name : string) : result t :=
  Ok {| acti_func := acti_func;
        with_bn := with_bn;
        layer_name := make_layer_name name with_bn acti_func;
        n_output_chns := n_output_chns;
        kernel_size := kernel_size;
        stride := stride;
        padding := padding;
        with_bias := with_bias;
        moving_decay := moving_decay;
        eps := eps;
        initializers :=
          mk_wb (ConvTransLayer.or_default w_initializer default_w_initializer)
                (ConvTransLayer.or_default b_initializer default_b_initializer);
        regularizers := mk_wb w_regularizer b_regularizer |}.

(** The defaults of the keyword arguments. *)
Definition default_stride : IntOrSeq := Scalar 1.
Definition default_padding : string := "SAME".
Definition default_moving_decay : float := (9 # 10)%Q.
Definition default_eps : float := (1 # 100000)%Q.
Definition default_name : string := "conv_trans".

(** The sub-layer objects that [layer_op] constructs. *)
Definition conv_trans_layer (self : t) : result ConvTransLayer.t :=
  ConvTransLayer.__init__
    (n_output_chns self) (kernel_size self) (stride self)
    (padding self) (with_bias self)
    (Some (at_w (initializers self))) (at_w (regularizers self))
    (Some (at_b (initializers self))) (at_b (regularizers self))
    "conv_trans_".

Definition bn_layer (self : t) : BNLayer :=
  {| bn_regularizer := at_w (regularizers self);
     bn_moving_decay := moving_decay self;
     bn_eps := eps self;
     bn_name := "bn_" |}.

Definition acti_layer (self : t) (func : string) : ActiLayer :=
  {| al_func := func;
     al_regularizer := at_w (regularizers self);
     al_name := "acti_" |}.

Definition dropout_layer : ActiLayer :=
  {| al_func := "dropout";
     al_regularizer := None;
     al_name := "dropout_" |}.

Section WithCatalogue.

Variable SUPPORTED_OP : string -> bool.

Definition layer_op (self : t) (input_tensor : Tensor)
           (is_training : option bool) (keep_prob : option float)
  : M Tensor :=
  conv_trans_layer <- lift (conv_trans_layer self) ;;
  output_tensor <- ConvTransLayer.__call__ conv_trans_layer input_tensor ;;
  output_tensor <-
    (if with_bn self
     then BNLayer_call (bn_layer self) output_tensor is_training
     else ret output_tensor) ;;
  output_tensor <-
    (match acti_func self with
     | Some func =>
         ActiLayer_call SUPPORTED_OP (acti_layer self func) output_tensor None
     | None => ret output_tensor
     end) ;;
  match keep_prob with
  | Some p =>
      ActiLayer_call SUPPORTED_OP dropout_layer output_tensor (Some p)
  | None => ret output_tensor
  end.

Definition __call__ (self : t) (input_tensor : Tensor)
           (is_training : option bool) (keep_prob : option float)
  : M Tensor :=
  in_scope (layer_name self)
           (layer_op self input_tensor is_training keep_prob).

End WithCatalogue.

End ConvolutionalTransposeLayer.

(* ================================================================== *)
(** * Properties *)

(** ** The monad and the store *)

Lemma bind_ok {A B} (m : M A) (k : A -> M B) g a g' :
  m g = Ok (a, g') -> bind m k g = k a g'.
Proof. unfold bind; intros ->; reflexivity. Qed.

Lemma bind_raise {A B} (m : M A) (k : A -> M B) g e :
  m g = Raise e -> bind m k g = Raise e.
Proof. unfold bind; intros ->; reflexivity. Qed.

Lemma bind_inv {A B} (m : M A) (k : A -> M B) g b g'' :
  bind m k g = Ok (b, g'') ->
  exists a g', m g = Ok (a, g') /\ k a g' = Ok (b, g'').
Proof.
  unfold bind; destruct (m g) as [[a g']|e]; intros H; [|discriminate].
  exists a, g'; split; [reflexivity|exact H].
Qed.

Lemma bind_ret_r {A} (m : M A) g : bind m ret g = m g.
Proof. unfold bind, ret; destruct (m g) as [[a g']|e]; reflexivity. Qed.

Lemma lift_inv {A} (r : result A) g a g' :
  lift r g = Ok (a, g') -> r = Ok a /\ g' = g.
Proof.
  unfold lift; destruct r; intros H; inversion H; subst; split; reflexivity.
Qed.

Lemma in_scope_inv {A} name (body : M A) g a g' :
  in_scope name body g = Ok (a, g') ->
  exists g1, body (mk_graph (scope g ++ [name]) (variables g)) = Ok (a, g1)
             /\ g' = mk_graph (scope g) (variables g1).
Proof.
  unfold in_scope.
  destruct (body _) as [[a1 g1]|e]; intros H; inversion H; subst.
  exists g1; split; reflexivity.
Qed.

Lemma path_eqb_refl p : tf.path_eqb p p = true.
Proof.
  induction p as [|a p IH]; simpl; [reflexivity|].
  rewrite String.eqb_refl, IH; reflexivity.
Qed.

Lemma path_eqb_app_prefix p q r :
  tf.path_eqb (p ++ q) (p ++ r) = tf.path_eqb q r.
Proof.
  induction p as [|a p IH]; simpl; [reflexivity|].
  rewrite String.eqb_refl, IH; reflexivity.
Qed.

Lemma shape_eqb_refl s : tf.shape_eqb s s = true.
Proof.
  induction s as [|a s IH]; simpl; [reflexivity|].
  rewrite Z.eqb_refl, IH; reflexivity.
Qed.

Lemma find_snoc {A} (f : A -> bool) l a :
  find f l = None -> find f (l ++ [a]) = if f a then Some a else None.
Proof.
  induction l as [|x l IH]; simpl; [reflexivity|].
  destruct (f x); [discriminate|exact IH].
Qed.

(** ** Padding look-up and construction *)

Lemma ConvTransLayer_init_ok_iff n k s p wb wi wr bi br nm :
  is_ok (ConvTransLayer.__init__ n k s p wb wi wr bi br nm)
  = Str.mem (Str.upper p) SUPPORTED_PADDING.
Proof.
  unfold ConvTransLayer.__init__, look_up_operations.
  destruct (Str.mem (Str.upper p) SUPPORTED_PADDING); reflexivity.
Qed.

Lemma ConvTransLayer_init_fields n k s p wb wi wr bi br nm l :
  ConvTransLayer.__init__ n k s p wb wi wr bi br nm = Ok l ->
  l = ConvTransLayer.mk nm (Str.upper p) n
        (np.asarray_flatten k) (np.asarray_flatten s) wb
        (mk_wb (ConvTransLayer.or_default wi default_w_initializer)
               (ConvTransLayer.or_default bi default_b_initializer))
        (mk_wb wr br)
  /\ Str.mem (Str.upper p) SUPPORTED_PADDING = true.
Proof.
  unfold ConvTransLayer.__init__, look_up_operations.
  destruct (Str.mem (Str.upper p) SUPPORTED_PADDING); intros H; inversion H.
  split; reflexivity.
Qed.

Lemma ConvTransLayer_init_raise n k s p wb wi wr bi br nm :
  Str.mem (Str.upper p) SUPPORTED_PADDING = false ->
  ConvTransLayer.__init__ n k s p wb wi wr bi br nm
  = Raise (LookupFailed (Str.upper p)).
Proof.
  unfold ConvTransLayer.__init__, look_up_operations; intros ->; reflexivity.
Qed.

(** What the look-up accepts is accepted by the operator as well. *)
Lemma supported_padding_tf p :
  Str.mem p SUPPORTED_PADDING = true -> Str.mem p tf.SUPPORTED_PADDING = true.
Proof.
  unfold SUPPORTED_PADDING, tf.SUPPORTED_PADDING; simpl.
  destruct (String.eqb p "SAME"), (String.eqb p "VALID"); intros H;
    first [reflexivity | discriminate].
Qed.

(** ** The numpy computations of [layer_op] *)

Lemma concat_repeat_singleton {A} (a : A) n :
  List.concat (repeat [a] n) = repeat a n.
Proof. induction n as [|n IH]; simpl; [reflexivity|rewrite IH; reflexivity]. Qed.

Lemma forallb_repeat {A} (f : A -> bool) a n :
  f a = true -> forallb f (repeat a n) = true.
Proof. intros H; induction n as [|n IH]; simpl; [reflexivity|rewrite H, IH; reflexivity]. Qed.

Lemma map_repeat {A B} (f : A -> B) a n : map f (repeat a n) = repeat (f a) n.
Proof. induction n as [|n IH]; simpl; [reflexivity|rewrite IH; reflexivity]. Qed.

(** Stacking [n >= 1] copies of a kernel array with the two channel counts
    works exactly when the kernel array has one entry. *)
Lemma vstack_kernel (ks : np.array1) (n : nat) (co ci : Z) :
  np.vstack [np.ArgList (repeat ks (S n)); np.ArgScalar co; np.ArgScalar ci]
  = if Nat.eqb (List.length ks) 1
    then Ok (repeat ks (S n) ++ [[co]; [ci]])
    else Raise VStackError.
Proof.
  unfold np.vstack, np.concatenate0; simpl.
  destruct (Nat.eqb (List.length ks) 1) eqn:E.
  - apply Nat.eqb_eq in E.
    destruct ks as [|k [|k' ks']]; simpl in E; try discriminate.
    simpl. reflexivity.
  - destruct ks as [|k [|k' ks']]; simpl in *; try reflexivity; discriminate.
Qed.

Lemma vstack_kernel_empty (co ci : Z) :
  np.vstack [np.ArgList []; np.ArgScalar co; np.ArgScalar ci] = Raise VStackError.
Proof. reflexivity. Qed.

(** Stacking [n >= 1] copies of the stride array gives [n] equal rows. *)
Lemma vstack_stride (ss : np.array1) (n : nat) :
  np.vstack (map np.ArgArray (repeat ss (S n))) = Ok (repeat ss (S n)).
Proof.
  unfold np.vstack. rewrite !map_repeat.
  change (np.atleast_2d (np.ArgArray ss)) with [ss].
  change (repeat [ss] (S n)) with ([ss] :: repeat [ss] n).
  unfold np.concatenate0.
  rewrite forallb_repeat by (apply Nat.eqb_refl).
  change ([ss] :: repeat [ss] n) with (repeat [ss] (S n)).
  rewrite concat_repeat_singleton. reflexivity.
Qed.

Lemma get_last_ok (l : list Z) :
  l <> [] -> get_last l = Ok (last l 0).
Proof. destruct l; [congruence|reflexivity]. Qed.

Lemma set_last_ok (l : list Z) v :
  l <> [] -> set_last l v = Ok (removelast l ++ [v]).
Proof. destruct l; [congruence|reflexivity]. Qed.

Lemma length_removelast {A} (l : list A) :
  l <> [] -> S (List.length (removelast l)) = List.length l.
Proof.
  induction l as [|a l IH]; [congruence|intros _].
  destruct l as [|b l]; [reflexivity|].
  change (removelast (a :: b :: l)) with (a :: removelast (b :: l)).
  cbn [List.length]. rewrite IH by discriminate. reflexivity.
Qed.

Lemma hd_removelast_app (l : list Z) v :
  l <> [] ->
  hd 0 (removelast l ++ [v]) = if Nat.eqb (List.length l) 1 then v else hd 0 l.
Proof. destruct l as [|a [|b l]]; [congruence|reflexivity|reflexivity]. Qed.

Lemma set_last_inv (l l' : list Z) v :
  set_last l v = Ok l' ->
  l' = removelast l ++ [v] /\ List.length l' = List.length l /\ last l' 0 = v
  /\ hd 0 l' = (if Nat.eqb (List.length l) 1 then v else hd 0 l).
Proof.
  intros H.
  assert (Hne : l <> []) by (destruct l; [discriminate|congruence]).
  rewrite (set_last_ok v Hne) in H. injection H as <-.
  split; [reflexivity|]. split; [|split].
  - rewrite length_app, <- (length_removelast Hne). cbn [List.length]. lia.
  - apply last_last.
  - apply hd_removelast_app; exact Hne.
Qed.

Section LayerLocals.

Variable self : ConvTransLayer.t.
Variable input_tensor : Tensor.
Variable n : nat.

(** The input has [n + 1] spatial dimensions. *)
Hypothesis Hrank : List.length (get_shape input_tensor) = (n + 3)%nat.

Lemma spatial_rank_eq : infer_spatial_rank input_tensor = Z.of_nat (S n).
Proof. unfold infer_spatial_rank. rewrite Hrank. lia. Qed.

Lemma shape_nonempty : get_shape input_tensor <> [].
Proof. intros E. rewrite E in Hrank. simpl in Hrank. lia. Qed.

Lemma w_full_size_eq :
  ConvTransLayer.w_full_size self input_tensor
  = if Nat.eqb (List.length (ConvTransLayer.kernel_size self)) 1
    then Ok (List.concat (repeat (ConvTransLayer.kernel_size self) (S n))
             ++ [ConvTransLayer.n_output_chns self;
                 last (get_shape input_tensor) 0])
    else Raise VStackError.
Proof.
  unfold ConvTransLayer.w_full_size.
  rewrite (get_last_ok shape_nonempty), spatial_rank_eq.
  unfold np.py_repeat. rewrite Nat2Z.id, vstack_kernel.
  destruct (Nat.eqb _ 1); [|reflexivity].
  unfold np.flatten. rewrite concat_app. simpl. reflexivity.
Qed.

Lemma full_stride_eq :
  ConvTransLayer.full_stride self input_tensor
  = Ok (List.concat (repeat (ConvTransLayer.stride self) (S n))).
Proof.
  unfold ConvTransLayer.full_stride.
  rewrite spatial_rank_eq. unfold np.py_repeat.
  rewrite Nat2Z.id, vstack_stride. reflexivity.
Qed.

Lemma conv_strides_eq :
  ConvTransLayer.conv_strides self input_tensor
  = Ok ([1] ++ List.concat (repeat (ConvTransLayer.stride self) (S n)) ++ [1]).
Proof.
  unfold ConvTransLayer.conv_strides. rewrite full_stride_eq. reflexivity.
Qed.

End LayerLocals.

(** ** Calling the primitive layer *)

(** The conditions under which a call of the primitive layer goes through:
    a five-dimensional input, a kernel size with one entry, a stride with
    at least one entry, no negative dimension in the kernel shape, and a
    padding the operator knows. *)
Definition config_ok (self : ConvTransLayer.t) (input_tensor : Tensor) : bool :=
  Nat.eqb (List.length (get_shape input_tensor)) 5
  && Nat.eqb (List.length (ConvTransLayer.kernel_size self)) 1
  && Nat.leb 1 (List.length (ConvTransLayer.stride self))
  && (0 <=? hd 0 (ConvTransLayer.kernel_size self))
  && (0 <=? ConvTransLayer.n_output_chns self)
  && (0 <=? last (get_shape input_tensor) 0)
  && Str.mem (ConvTransLayer.padding self) tf.SUPPORTED_PADDING.

(** No variable named "w" or "b" exists yet under the scope [path]: the
    call is the first one of the layer. *)
Definition fresh (path : list string) (g : Graph) : bool :=
  match tf.lookup_variable (path ++ ["w"]) g,
        tf.lookup_variable (path ++ ["b"]) g with
  | None, None => true
  | _, _ => false
  end.

Definition kernel_variable (self : ConvTransLayer.t) (input_tensor : Tensor)
           (g : Graph) : VariableRec :=
  mk_var ((scope g ++ [ConvTransLayer.name self]) ++ ["w"])
         (List.concat (repeat (ConvTransLayer.kernel_size self) 3)
          ++ [ConvTransLayer.n_output_chns self; last (get_shape input_tensor) 0])
         (at_w (ConvTransLayer.initializers self))
         (at_w (ConvTransLayer.regularizers self)).

Definition bias_variable (self : ConvTransLayer.t) (g : Graph) : VariableRec :=
  mk_var ((scope g ++ [ConvTransLayer.name self]) ++ ["b"])
         [ConvTransLayer.n_output_chns self]
         (at_b (ConvTransLayer.initializers self))
         (at_b (ConvTransLayer.regularizers self)).

Definition conv_node (self : ConvTransLayer.t) (input_tensor : Tensor)
           (g : Graph) : Tensor :=
  Conv3DTranspose input_tensor
    (ReadVariable (kernel_variable self input_tensor g))
    (removelast (get_shape input_tensor) ++ [ConvTransLayer.n_output_chns self])
    ([1] ++ List.concat (repeat (ConvTransLayer.stride self) 3) ++ [1])
    (ConvTransLayer.padding self) "conv_trans".

Lemma conv3d_transpose_inv value filter os st p nm t :
  tf.conv3d_transpose value filter os st p nm = Ok t ->
  t = Conv3DTranspose value filter os st p nm
  /\ List.length os = 5%nat
  /\ (5 <= List.length st)%nat
  /\ Str.mem p tf.SUPPORTED_PADDING = true.
Proof.
  unfold tf.conv3d_transpose. cbv zeta.
  destruct (nth_error (get_shape value) 4); [|discriminate].
  destruct (nth_error (get_shape filter) 4); [|discriminate].
  destruct (negb (z =? z0)); [discriminate|].
  destruct (Nat.eqb (List.length os) 5) eqn:E1; cbn [negb]; [|discriminate].
  destruct (nth_error (get_shape filter) 3); [|discriminate].
  destruct (nth_error os 4); [|discriminate].
  destruct (negb (z1 =? z2)); [discriminate|].
  destruct (Str.mem p tf.SUPPORTED_PADDING) eqn:E2; cbn [negb]; [|discriminate].
  destruct (Nat.ltb (List.length st) 5) eqn:E3; [discriminate|].
  intros H; injection H as <-.
  apply Nat.eqb_eq in E1. apply Nat.ltb_ge in E3.
  repeat split; assumption.
Qed.

Lemma bias_add_inv value bias nm t :
  tf.bias_add value bias nm = Ok t -> t = BiasAdd value bias nm.
Proof.
  unfold tf.bias_add.
  destruct (get_shape bias) as [|n [|]]; try discriminate.
  destruct (Nat.ltb _ 2); [discriminate|].
  destruct (_ =? n); [|discriminate].
  intros H; injection H as <-; reflexivity.
Qed.

Lemma get_variable_inv nm shape init reg g t g' :
  tf.get_variable nm shape init reg g = Ok (t, g') ->
  existsb (fun d => d <? 0) shape = false
  /\ scope g' = scope g
  /\ exists v, t = ReadVariable v /\ var_shape v = shape.
Proof.
  unfold tf.get_variable.
  destruct (existsb _ shape); [discriminate|].
  destruct (tf.lookup_variable _ g) as [v|].
  - destruct (tf.shape_eqb (var_shape v) shape) eqn:E; [|discriminate].
    intros H; injection H as <- <-.
    split; [reflexivity|]. split; [reflexivity|].
    exists v; split; [reflexivity|].
    clear -E. revert shape E. generalize (var_shape v) as s.
    induction s as [|a s IH]; intros [|b sh] E; simpl in E; try discriminate.
    + reflexivity.
    + apply andb_true_iff in E as [E1 E2].
      apply Z.eqb_eq in E1. subst. f_equal. apply IH, E2.
  - intros H; injection H as <- <-.
    split; [reflexivity|]. split; [reflexivity|].
    eexists; split; reflexivity.
Qed.

Lemma get_variable_fresh nm shape init reg g :
  existsb (fun d => d <? 0) shape = false ->
  tf.lookup_variable (scope g ++ [nm]) g = None ->
  tf.get_variable nm shape init reg g
  = Ok (ReadVariable (mk_var (scope g ++ [nm]) shape init reg),
        mk_graph (scope g)
                 (variables g ++ [mk_var (scope g ++ [nm]) shape init reg])).
Proof. unfold tf.get_variable; intros -> ->; reflexivity. Qed.

Lemma lift_ok {A} (r : result A) a g : r = Ok a -> lift r g = Ok (a, g).
Proof. intros ->; reflexivity. Qed.

Lemma length_5_inv (l : list Z) :
  List.length l = 5%nat ->
  exists d0 d1 d2 d3 d4, l = [d0; d1; d2; d3; d4].
Proof.
  destruct l as [|d0 [|d1 [|d2 [|d3 [|d4 [|d5 l]]]]]]; simpl; intros H;
    try discriminate.
  exists d0, d1, d2, d3, d4; reflexivity.
Qed.

Lemma length_concat_repeat {A} (l : list A) n :
  List.length (List.concat (repeat l n)) = (n * List.length l)%nat.
Proof.
  induction n as [|n IH]; simpl; [reflexivity|].
  rewrite length_app, IH. reflexivity.
Qed.

Lemma config_ok_inv self x :
  config_ok self x = true ->
  List.length (get_shape x) = 5%nat
  /\ (exists k, ConvTransLayer.kernel_size self = [k] /\ 0 <= k)
  /\ (1 <= List.length (ConvTransLayer.stride self))%nat
  /\ 0 <= ConvTransLayer.n_output_chns self
  /\ 0 <= last (get_shape x) 0
  /\ Str.mem (ConvTransLayer.padding self) tf.SUPPORTED_PADDING = true.
Proof.
  unfold config_ok. rewrite !andb_true_iff.
  intros [[[[[[H1 H2] H3] H4] H5] H6] H7].
  apply Nat.eqb_eq in H1, H2. apply Nat.leb_le in H3.
  apply Z.leb_le in H4, H5, H6.
  repeat split; try assumption.
  destruct (ConvTransLayer.kernel_size self) as [|k [|k' ks]];
    simpl in H2; try discriminate.
  exists k; split; [reflexivity|exact H4].
Qed.

(** A first call that satisfies [config_ok] creates the kernel, then the
    bias when asked for, and returns the operator's node, with the bias
    added when asked for. *)
Lemma ConvTransLayer_first_call self x g :
  config_ok self x = true ->
  fresh (scope g ++ [ConvTransLayer.name self]) g = true ->
  ConvTransLayer.__call__ self x g
  = Ok (if ConvTransLayer.with_bias self
        then BiasAdd (conv_node self x g)
                     (ReadVariable (bias_variable self g)) "add_bias"
        else conv_node self x g,
        mk_graph (scope g)
          (variables g ++ kernel_variable self x g
             :: (if ConvTransLayer.with_bias self
                 then [bias_variable self g] else []))).
Proof.
  intros Hcfg Hfresh.
  destruct (config_ok_inv _ _ Hcfg) as (Hrank & (k & Hk & Hk0) & Hs & Hn & Hc & Hp).
  unfold fresh in Hfresh.
  destruct (tf.lookup_variable ((scope g ++ [ConvTransLayer.name self]) ++ ["w"]) g)
    eqn:Hw; [discriminate|].
  destruct (tf.lookup_variable ((scope g ++ [ConvTransLayer.name self]) ++ ["b"]) g)
    eqn:Hb; [discriminate|]. clear Hfresh.
  assert (Hrank' : List.length (get_shape x) = (2 + 3)%nat) by exact Hrank.
  unfold ConvTransLayer.__call__, in_scope.
  set (g1 := mk_graph (scope g ++ [ConvTransLayer.name self]) (variables g)).
  unfold ConvTransLayer.layer_op.
  (* w_full_size *)
  erewrite bind_ok; cycle 1.
  { apply lift_ok. rewrite (@w_full_size_eq self x 2 Hrank').
    replace (Nat.eqb (List.length (ConvTransLayer.kernel_size self)) 1)
      with true by (rewrite Hk; reflexivity).
    reflexivity. }
  (* strides *)
  erewrite bind_ok; cycle 1.
  { apply lift_ok. apply (@conv_strides_eq self x 2 Hrank'). }
  (* the kernel variable *)
  erewrite bind_ok; cycle 1.
  { apply get_variable_fresh.
    - rewrite Hk. simpl.
      repeat match goal with
             | |- context [?a <? 0] =>
                 replace (a <? 0) with false by (symmetry; apply Z.ltb_ge; lia)
             end.
      reflexivity.
    - exact Hw. }
  (* output_shape *)
  erewrite bind_ok; cycle 1.
  { apply lift_ok. unfold ConvTransLayer.output_shape.
    apply set_last_ok. intros E. rewrite E in Hrank. discriminate. }
  (* the operator *)
  destruct (length_5_inv _ Hrank) as (d0 & d1 & d2 & d3 & d4 & Hsh).
  erewrite (@bind_ok _ _ _ _ _ (conv_node self x g)); cycle 1.
  { apply lift_ok. unfold tf.conv3d_transpose, conv_node, kernel_variable.
    cbv zeta.
    rewrite Hsh, Hk. cbn [get_shape var_shape nth_error List.concat repeat app
                          removelast List.length Nat.eqb negb].
    rewrite Hsh in Hc. cbn [last] in Hc |- *.
    rewrite !Z.eqb_refl. cbn [negb]. rewrite Hp. cbn [negb].
    replace (Nat.ltb _ 5) with false; [reflexivity|].
    symmetry. apply Nat.ltb_ge.
    rewrite !length_app. cbn [List.length]. lia. }
  destruct (ConvTransLayer.with_bias self); cbn [negb].
  - (* with the bias *)
    erewrite bind_ok; cycle 1.
    { apply get_variable_fresh.
      - simpl. replace (_ <? 0) with false by (symmetry; apply Z.ltb_ge; lia).
        reflexivity.
      - unfold tf.lookup_variable in *. cbn [variables scope].
        rewrite find_snoc by exact Hb.
        cbn [var_name]. unfold g1. cbn [scope].
        rewrite path_eqb_app_prefix. reflexivity. }
    unfold lift, tf.bias_add. cbn [get_shape var_shape].
    unfold conv_node at 1 2. cbn [get_shape].
    replace (Nat.ltb _ 2) with false
      by (rewrite Hsh; reflexivity).
    rewrite last_last, Z.eqb_refl.
    unfold bias_variable, conv_node, kernel_variable, g1. cbn [scope variables].
    repeat rewrite <- app_assoc. reflexivity.
  - unfold ret, g1. cbn [scope variables]. reflexivity.
Qed.

(** Conversely, a call that returns a tensor satisfied [config_ok], and
    the static shape of what it returns is the input shape with the last
    entry overwritten. *)
Lemma ConvTransLayer_call_inv self x g t g' :
  ConvTransLayer.__call__ self x g = Ok (t, g') ->
  config_ok self x = true
  /\ get_shape t
     = removelast (get_shape x) ++ [ConvTransLayer.n_output_chns self].
Proof.
  unfold ConvTransLayer.__call__. intros H.
  apply in_scope_inv in H as (g1 & H & _).
  unfold ConvTransLayer.layer_op in H.
  apply bind_inv in H as (wfs & ga & Hwfs & H).
  apply lift_inv in Hwfs as [Hwfs ->].
  apply bind_inv in H as (st & gb & Hst & H).
  apply lift_inv in Hst as [Hst ->].
  apply bind_inv in H as (ker & gc & Hker & H).
  apply get_variable_inv in Hker as (Hneg & _ & (v & -> & Hv)).
  apply bind_inv in H as (os & gd & Hos & H).
  apply lift_inv in Hos as [Hos ->].
  apply bind_inv in H as (ot & ge & Hot & H).
  apply lift_inv in Hot as [Hot ->].
  apply conv3d_transpose_inv in Hot as (-> & Hlen & Hstl & Hpad).
  unfold ConvTransLayer.output_shape in Hos.
  apply set_last_inv in Hos as (Hos & Hoslen & _ & _).
  assert (Hrank : List.length (get_shape x) = (2 + 3)%nat) by (simpl; congruence).
  rewrite (@w_full_size_eq self x 2 Hrank) in Hwfs.
  rewrite (@conv_strides_eq self x 2 Hrank) in Hst.
  destruct (Nat.eqb (List.length (ConvTransLayer.kernel_size self)) 1) eqn:Hk;
    [|discriminate].
  injection Hwfs as <-. injection Hst as <-.
  split.
  - unfold config_ok. rewrite Hrank, Hk, Hpad. cbn [Nat.eqb andb].
    apply Nat.eqb_eq in Hk.
    destruct (ConvTransLayer.kernel_size self) as [|k [|k' ks]];
      simpl in Hk; try discriminate.
    simpl in Hneg. rewrite !orb_false_iff in Hneg.
    destruct Hneg as (Hk0 & _ & _ & Hn & Hc & _).
    apply Z.ltb_ge in Hk0, Hn, Hc.
    rewrite !andb_true_r. rewrite !andb_true_iff. repeat split.
    + apply Nat.leb_le.
      cbn [List.length] in Hstl. rewrite !length_app in Hstl.
      cbn [List.length] in Hstl.
      destruct (ConvTransLayer.stride self); [simpl in Hstl; lia|simpl; lia].
    + apply Z.leb_le; exact Hk0.
    + apply Z.leb_le; exact Hn.
    + apply Z.leb_le; exact Hc.
  - destruct (ConvTransLayer.with_bias self); cbn [negb] in H.
    + apply bind_inv in H as (bt & gf & _ & H).
      apply lift_inv in H as [H _].
      apply bias_add_inv in H as ->. simpl. exact Hos.
    + unfold ret in H. injection H as <- _. simpl. exact Hos.
Qed.

(** Among first calls, [config_ok] is exactly the condition for success. *)
Lemma ConvTransLayer_call_ok_iff self x g :
  fresh (scope g ++ [ConvTransLayer.name self]) g = true ->
  is_ok (ConvTransLayer.__call__ self x g) = config_ok self x.
Proof.
  intros Hf.
  destruct (config_ok self x) eqn:Hc.
  - rewrite (ConvTransLayer_first_call _ _ _ Hc Hf). reflexivity.
  - destruct (ConvTransLayer.__call__ self x g) as [[t g']|e] eqn:E;
      [|reflexivity].
    apply ConvTransLayer_call_inv in E as [E _]. congruence.
Qed.

(** ** Strides and the requested output shape *)

Lemma same_length_not_restored d k s :
  2 <= s -> 2 <= d -> (tf.conv_output_length d k s "SAME" =? d) = false.
Proof.
  intros Hs Hd. unfold tf.conv_output_length. rewrite String.eqb_refl.
  apply Z.eqb_neq. intros E.
  assert (H : (d + s - 1) / s < d).
  { apply Z.div_lt_upper_bound; nia. }
  lia.
Qed.

(** The requested output shape repeats the spatial lengths of the input,
    whatever the stride.  With SAME padding and a scalar stride of 2 or
    more, a first call on an input whose first spatial length is 2 or more
    therefore returns a node that cannot be evaluated. *)
Lemma strided_call_not_runnable self x g s d0 d1 d2 d3 d4 :
  config_ok self x = true ->
  fresh (scope g ++ [ConvTransLayer.name self]) g = true ->
  ConvTransLayer.with_bias self = false ->
  ConvTransLayer.stride self = [s] -> 2 <= s ->
  ConvTransLayer.padding self = "SAME" ->
  get_shape x = [d0; d1; d2; d3; d4] -> 2 <= d1 ->
  exists t g',
    ConvTransLayer.__call__ self x g = Ok (t, g')
    /\ get_shape t = [d0; d1; d2; d3; ConvTransLayer.n_output_chns self]
    /\ tf.runnable t = false.
Proof.
  intros Hc Hf Hb Hst Hs Hp Hsh Hd.
  rewrite (ConvTransLayer_first_call _ _ _ Hc Hf), Hb.
  eexists. eexists. split; [reflexivity|].
  destruct (config_ok_inv _ _ Hc) as (_ & (k & Hk & _) & _).
  unfold conv_node, kernel_variable. rewrite Hsh, Hst, Hk, Hp.
  split; [reflexivity|].
  cbn [tf.runnable get_shape var_shape List.concat repeat app removelast
       List.length Nat.eqb hd last tf.spatial tl firstn tf.lengths_consistent].
  rewrite Hsh.
  cbn [hd tf.spatial tl removelast tf.lengths_consistent].
  rewrite (same_length_not_restored k Hs Hd).
  repeat rewrite andb_false_r. cbn [andb]. repeat rewrite andb_false_r.
  reflexivity.
Qed.

(* ================================================================== *)
(** * The claims *)

(** The input of the spec's example: one 8x8x8 volume with 4 channels. *)
Definition example_input : Tensor := Placeholder "input" [1; 8; 8; 8; 4].

(** C1 (the code departs from the claim).  On the example of the spec,
    input shape [1, 8, 8, 8, 4] with [n_output_chns = 16],
    [kernel_size = 3], [stride = 2] and padding "SAME", the layer asks the
    operator for the output shape [1, 8, 8, 8, 16]: the input shape with
    the channel entry overwritten, the stride left out of account.  The
    handle it returns has that static shape and not [1, 16, 16, 16, 16],
    and the request cannot be evaluated, since a stride of 2 maps a length
    of 8 back to 4; the lengths 16 of the claim are the ones that fit. *)
Theorem C1_example_output_shape_ignores_stride :
  exists l t g',
    ConvTransLayer.__init__ 16 (Scalar 3) (Scalar 2) "SAME" false
                            None None None None "conv" = Ok l
    /\ ConvTransLayer.output_shape l example_input = Ok [1; 8; 8; 8; 16]
    /\ ConvTransLayer.__call__ l example_input empty_graph = Ok (t, g')
    /\ get_shape t = [1; 8; 8; 8; 16]
    /\ get_shape t <> [1; 16; 16; 16; 16]
    /\ tf.runnable t = false
    /\ tf.lengths_consistent [8; 8; 8] [16; 16; 16] [3; 3; 3] [2; 2; 2] "SAME"
       = true.
Proof.
  eexists. eexists. eexists.
  split; [reflexivity|].
  split; [reflexivity|].
  split; [vm_compute; reflexivity|].
  split; [reflexivity|].
  split; [discriminate|].
  split; reflexivity.
Qed.

(** C2.  A first call of the primitive layer that meets the conditions
    of [config_ok] returns a tensor whose last dimension is the configured
    [n_output_chns] and whose rank is the rank of the input.
    ([ConvTransLayer_call_inv] shows the same of every call that returns,
    and [ConvTransLayer_call_ok_iff] that the conditions are the exact
    ones.) *)
Theorem C2_output_channels_and_rank self x g :
  config_ok self x = true ->
  fresh (scope g ++ [ConvTransLayer.name self]) g = true ->
  exists t g',
    ConvTransLayer.__call__ self x g = Ok (t, g')
    /\ last (get_shape t) 0 = ConvTransLayer.n_output_chns self
    /\ List.length (get_shape t) = List.length (get_shape x).
Proof.
  intros Hc Hf.
  destruct (ConvTransLayer.__call__ self x g) as [[t g']|e] eqn:E.
  - exists t, g'. split; [reflexivity|].
    apply ConvTransLayer_call_inv in E as [_ E]. rewrite E.
    split; [apply last_last|].
    apply config_ok_inv in Hc as (Hrank & _).
    rewrite length_app. cbn [List.length].
    assert (Hne : get_shape x <> []) by (intros E0; rewrite E0 in Hrank; discriminate).
    rewrite <- (length_removelast Hne). lia.
  - rewrite (ConvTransLayer_first_call _ _ _ Hc Hf) in E. discriminate.
Qed.

Definition example_layer : ConvTransLayer.t :=
  ConvTransLayer.mk "conv" "SAME" 16 [3] [1] true
                    (mk_wb default_w_initializer default_b_initializer)
                    (mk_wb None None).

Lemma C2_output_channels_and_rank_witness :
  exists t g',
    ConvTransLayer.__call__ example_layer example_input empty_graph = Ok (t, g')
    /\ last (get_shape t) 0 = 16
    /\ List.length (get_shape t) = 5%nat.
Proof.
  apply (@C2_output_channels_and_rank example_layer example_input empty_graph);
    reflexivity.
Defined.

(** ** C3: where an unsupported padding is reported *)

(** Constructing the composite layer always succeeds, whatever the
    padding. *)
Lemma Composite_init_ok n k s p wb wbn af wi wr bi br md ep nm :
  exists c,
    ConvolutionalTransposeLayer.__init__ n k s p wb wbn af wi wr bi br md ep nm
    = Ok c
    /\ ConvolutionalTransposeLayer.padding c = p
    /\ ConvolutionalTransposeLayer.n_output_chns c = n
    /\ ConvolutionalTransposeLayer.kernel_size c = k
    /\ ConvolutionalTransposeLayer.stride c = s
    /\ ConvolutionalTransposeLayer.with_bias c = wb.
Proof. eexists; repeat split; reflexivity. Qed.

(** A composite layer holding an unsupported padding raises when it is
    called, at the point where it constructs its primitive layer. *)
Lemma Composite_call_bad_padding cat c x it kp g :
  Str.mem (Str.upper (ConvolutionalTransposeLayer.padding c)) SUPPORTED_PADDING
  = false ->
  ConvolutionalTransposeLayer.__call__ cat c x it kp g
  = Raise (LookupFailed (Str.upper (ConvolutionalTransposeLayer.padding c))).
Proof.
  intros H.
  unfold ConvolutionalTransposeLayer.__call__, in_scope,
    ConvolutionalTransposeLayer.layer_op,
    ConvolutionalTransposeLayer.conv_trans_layer.
  rewrite (ConvTransLayer_init_raise _ _ _ _ _ _ _ _ _ _ H).
  reflexivity.
Qed.

(** C3, as stated, fails in two ways: the primitive layer accepts "same",
    which is not one of the strings SAME and VALID, because the padding is
    upper-cased before it is looked up; and the composite layer is
    constructed without complaint with the padding "full", the failure
    coming only when the layer is called. *)
Lemma C3_counterexample :
  Str.mem "same" SUPPORTED_PADDING = false
  /\ is_ok (ConvTransLayer.__init__ 16 (Scalar 3) (Scalar 1) "same" false
                                    None None None None "conv") = true
  /\ Str.mem "full" SUPPORTED_PADDING = false
  /\ exists c,
       ConvolutionalTransposeLayer.__init__
         16 (Scalar 3) (Scalar 1) "full" false true None
         None None None None
         ConvolutionalTransposeLayer.default_moving_decay
         ConvolutionalTransposeLayer.default_eps "conv_trans" = Ok c
       /\ ConvolutionalTransposeLayer.__call__
            (fun _ => true) c example_input None None empty_graph
          = Raise (LookupFailed "FULL").
Proof.
  split; [reflexivity|]. split; [reflexivity|]. split; [reflexivity|].
  eexists. split; reflexivity.
Qed.

(** C3, amended.  Constructing the primitive layer succeeds exactly when
    the upper-cased padding is SAME or VALID and fails at construction
    otherwise.  Constructing the composite layer succeeds for every
    padding; when the upper-cased padding is not supported, every call of
    the composite layer raises the look-up error. *)
Theorem C3_padding_checked_by_primitive_constructor
        n k s p wb wbn af wi wr bi br md ep nm :
  is_ok (ConvTransLayer.__init__ n k s p wb wi wr bi br nm)
  = Str.mem (Str.upper p) SUPPORTED_PADDING
  /\ exists c,
       ConvolutionalTransposeLayer.__init__
         n k s p wb wbn af wi wr bi br md ep nm = Ok c
       /\ forall cat x it kp g,
            Str.mem (Str.upper p) SUPPORTED_PADDING = false ->
            ConvolutionalTransposeLayer.__call__ cat c x it kp g
            = Raise (LookupFailed (Str.upper p)).
Proof.
  split; [apply ConvTransLayer_init_ok_iff|].
  destruct (Composite_init_ok n k s p wb wbn af wi wr bi br md ep nm)
    as (c & Hc & Hp & _).
  exists c. split; [exact Hc|].
  intros cat x it kp g H. rewrite <- Hp in H |- *.
  apply Composite_call_bad_padding, H.
Qed.

Lemma C3_padding_checked_by_primitive_constructor_witness :
  is_ok (ConvTransLayer.__init__ 16 (Scalar 3) (Scalar 1) "valid" false
                                 None None None None "conv") = true
  /\ is_ok (ConvTransLayer.__init__ 16 (Scalar 3) (Scalar 1) "full" false
                                    None None None None "conv") = false
  /\ exists c,
       ConvolutionalTransposeLayer.__init__
         16 (Scalar 3) (Scalar 1) "full" false true (Some "relu")
         None None None None (9 # 10)%Q (1 # 100000)%Q "conv_trans" = Ok c
       /\ ConvolutionalTransposeLayer.__call__
            (fun _ => true) c example_input (Some true) None empty_graph
          = Raise (LookupFailed "FULL").
Proof.
  split.
  { exact (proj1 (C3_padding_checked_by_primitive_constructor
                    16 (Scalar 3) (Scalar 1) "valid" false true None
                    None None None None (9 # 10)%Q (1 # 100000)%Q "conv")). }
  split.
  { exact (proj1 (C3_padding_checked_by_primitive_constructor
                    16 (Scalar 3) (Scalar 1) "full" false true None
                    None None None None (9 # 10)%Q (1 # 100000)%Q "conv")). }
  destruct (proj2 (C3_padding_checked_by_primitive_constructor
                     16 (Scalar 3) (Scalar 1) "full" false true (Some "relu")
                     None None None None (9 # 10)%Q (1 # 100000)%Q "conv_trans"))
    as (c & Hc & Hcall).
  exists c. split; [exact Hc|].
  apply (Hcall (fun _ => true) example_input (Some true) None empty_graph).
  reflexivity.
Defined.

(** ** C4: the spatial ranks the layer serves *)

(** An input whose rank is not five never gets through a call. *)
Lemma ConvTransLayer_call_wrong_rank self x g :
  Nat.eqb (List.length (get_shape x)) 5 = false ->
  is_ok (ConvTransLayer.__call__ self x g) = false.
Proof.
  intros H.
  destruct (ConvTransLayer.__call__ self x g) as [[t g']|e] eqn:E;
    [|reflexivity].
  apply ConvTransLayer_call_inv in E as [E _].
  unfold config_ok in E. rewrite H in E. discriminate.
Qed.

(** An input with two spatial dimensions. *)
Definition example_input_2d : Tensor := Placeholder "input" [1; 8; 8; 4].

(** C4, as stated, fails on an input with two spatial dimensions: the
    spatial rank is inferred as 2, the kernel shape and the strides are
    built for it, and the three-dimensional operator then rejects the
    request, so that no output tensor is produced. *)
Lemma C4_counterexample :
  infer_spatial_rank example_input_2d = 2
  /\ exists l,
       ConvTransLayer.__init__ 16 (Scalar 3) (Scalar 1) "SAME" false
                               None None None None "conv" = Ok l
       /\ ConvTransLayer.w_full_size l example_input_2d = Ok [3; 3; 16; 4]
       /\ ConvTransLayer.conv_strides l example_input_2d = Ok [1; 1; 1; 1]
       /\ ConvTransLayer.__call__ l example_input_2d empty_graph
          = Raise (FrameworkError "conv3d_transpose").
Proof.
  split; [reflexivity|].
  eexists. split; [reflexivity|].
  split; [reflexivity|]. split; [reflexivity|].
  vm_compute. reflexivity.
Qed.

(** C4, amended.  The layer serves inputs with three spatial dimensions
    (rank five): a first call on such an input that meets [config_ok]
    returns a tensor with the batch dimension of the input, the same rank,
    hence the same number of spatial dimensions, and the configured channel
    count; an input of any other rank is rejected. *)
Theorem C4_three_spatial_dimensions_only self x g :
  fresh (scope g ++ [ConvTransLayer.name self]) g = true ->
  (config_ok self x = true ->
   exists t g',
     ConvTransLayer.__call__ self x g = Ok (t, g')
     /\ infer_spatial_rank x = 3
     /\ hd 0 (get_shape t) = hd 0 (get_shape x)
     /\ List.length (tf.spatial (get_shape t)) = 3%nat
     /\ List.length (tf.spatial (get_shape x)) = 3%nat
     /\ last (get_shape t) 0 = ConvTransLayer.n_output_chns self)
  /\ (Nat.eqb (List.length (get_shape x)) 5 = false ->
      is_ok (ConvTransLayer.__call__ self x g) = false).
Proof.
  intros Hf. split; [|apply ConvTransLayer_call_wrong_rank].
  intros Hc.
  pose proof (ConvTransLayer_first_call _ _ _ Hc Hf) as E.
  destruct (ConvTransLayer.__call__ self x g) as [[t g']|e] eqn:E';
    [|discriminate].
  clear E. exists t, g'. split; [reflexivity|].
  apply ConvTransLayer_call_inv in E' as [_ E]. rewrite E.
  apply config_ok_inv in Hc as (Hrank & _).
  unfold infer_spatial_rank. rewrite Hrank.
  destruct (length_5_inv _ Hrank) as (d0 & d1 & d2 & d3 & d4 & ->).
  repeat split; reflexivity.
Qed.

Lemma C4_three_spatial_dimensions_only_witness :
  (exists t g',
     ConvTransLayer.__call__ example_layer example_input empty_graph
     = Ok (t, g')
     /\ infer_spatial_rank example_input = 3
     /\ hd 0 (get_shape t) = 1
     /\ List.length (tf.spatial (get_shape t)) = 3%nat
     /\ List.length (tf.spatial (get_shape example_input)) = 3%nat
     /\ last (get_shape t) 0 = 16)
  /\ is_ok (ConvTransLayer.__call__ example_layer example_input_2d empty_graph)
     = false.
Proof.
  split.
  - apply (proj1 (@C4_three_spatial_dimensions_only
                    example_layer example_input empty_graph eq_refl)).
    reflexivity.
  - apply (proj2 (@C4_three_spatial_dimensions_only
                    example_layer example_input_2d empty_graph eq_refl)).
    reflexivity.
Defined.

(** ** C5: the optional stages of the composite layer *)

(** The composite block in the words of the spec: the primitive layer,
    then the stages that are switched on, in the order normalisation,
    activation, dropout. *)
Inductive Stage : Type :=
| Normalisation (is_training : option bool)
| Activation (func : string)
| Dropout (keep_prob : float).

Definition enabled_stages (c : ConvolutionalTransposeLayer.t)
           (is_training : option bool) (keep_prob : option float) : list Stage :=
  (if ConvolutionalTransposeLayer.with_bn c
   then [Normalisation is_training] else [])
  ++ (match ConvolutionalTransposeLayer.acti_func c with
      | Some f => [Activation f]
      | None => []
      end)
  ++ (match keep_prob with
      | Some p => [Dropout p]
      | None => []
      end).

Definition run_stage (cat : string -> bool) (c : ConvolutionalTransposeLayer.t)
           (s : Stage) (t : Tensor) : M Tensor :=
  match s with
  | Normalisation is_training =>
      BNLayer_call (ConvolutionalTransposeLayer.bn_layer c) t is_training
  | Activation f =>
      ActiLayer_call cat (ConvolutionalTransposeLayer.acti_layer c f) t None
  | Dropout p =>
      ActiLayer_call cat ConvolutionalTransposeLayer.dropout_layer t (Some p)
  end.

(** The primitive layer on its own: constructed, then called. *)
Definition primitive_alone (n : Z) (k s : IntOrSeq) (p : string) (wb : bool)
           (wi : option Initializer) (wr : option Regularizer)
           (bi : option Initializer) (br : option Regularizer)
           (nm : string) (x : Tensor) : M Tensor :=
  l <- lift (ConvTransLayer.__init__ n k s p wb wi wr bi br nm) ;;
  ConvTransLayer.__call__ l x.

Definition spec_pipeline (cat : string -> bool)
           (c : ConvolutionalTransposeLayer.t) (x : Tensor)
           (is_training : option bool) (keep_prob : option float) : M Tensor :=
  fold_left (fun m s => t <- m ;; run_stage cat c s t)
            (enabled_stages c is_training keep_prob)
            (l <- lift (ConvolutionalTransposeLayer.conv_trans_layer c) ;;
             ConvTransLayer.__call__ l x).

Lemma bind_assoc {A B C} (m : M A) (f : A -> M B) (k : B -> M C) g :
  bind (bind m f) k g = bind m (fun a => bind (f a) k) g.
Proof. unfold bind. destruct (m g) as [[a g']|e]; reflexivity. Qed.

Lemma bind_ext {A B} (m : M A) (f f' : A -> M B) g :
  (forall a g', f a g' = f' a g') -> bind m f g = bind m f' g.
Proof. intros H. unfold bind. destruct (m g) as [[a g']|e]; [apply H|reflexivity]. Qed.

Lemma bind_ret_l {A B} (a : A) (k : A -> M B) g : bind (ret a) k g = k a g.
Proof. reflexivity. Qed.

(** Handing the primitive layer the initialisers the composite layer has
    already resolved is the same as handing it the original arguments. *)
Lemma or_default_idem x d :
  ConvTransLayer.or_default (Some (ConvTransLayer.or_default x d)) d
  = ConvTransLayer.or_default x d.
Proof. reflexivity. Qed.

Lemma layer_op_pipeline cat c x it kp g :
  ConvolutionalTransposeLayer.layer_op cat c x it kp g
  = spec_pipeline cat c x it kp g.
Proof.
  unfold ConvolutionalTransposeLayer.layer_op, spec_pipeline, enabled_stages.
  destruct (ConvolutionalTransposeLayer.with_bn c),
           (ConvolutionalTransposeLayer.acti_func c) as [f|],
           kp as [p|];
    cbn [app fold_left run_stage];
    unfold bind, lift;
    (destruct (ConvolutionalTransposeLayer.conv_trans_layer c) as [l|e];
     [|reflexivity]);
    (destruct (ConvTransLayer.__call__ l x g) as [[t g']|e]; [|reflexivity]);
    unfold BNLayer_call, ActiLayer_call, in_scope, ret, raise;
    cbn [scope variables ConvolutionalTransposeLayer.acti_layer
         ConvolutionalTransposeLayer.dropout_layer al_func al_name];
    repeat match goal with
           | |- context [cat ?f] => destruct (cat f)
           end;
    reflexivity.
Qed.


(** C5.  With normalisation off, no activation function and no
    keep-probability, a call of the composite layer is, inside the scope of
    the composite layer, the primitive layer constructed from the same
    arguments and called on the same input: same result, same error, same
    variables.  In general the computation of [layer_op] is
    [spec_pipeline]: the primitive layer followed by exactly the stages
    listed by [enabled_stages], so that switching one stage changes the
    presence of that stage only. *)
Theorem C5_optional_stages n k s p wb wi wr bi br md ep nm cat x g :
  (exists c,
     ConvolutionalTransposeLayer.__init__
       n k s p wb false None wi wr bi br md ep nm = Ok c
     /\ enabled_stages c None None = []
     /\ forall it,
          ConvolutionalTransposeLayer.__call__ cat c x it None g
          = in_scope nm
              (primitive_alone n k s p wb wi wr bi br "conv_trans_" x) g)
  /\ (forall c it kp,
        ConvolutionalTransposeLayer.layer_op cat c x it kp g
        = spec_pipeline cat c x it kp g).
Proof.
  split.
  - eexists. split; [reflexivity|]. split; [reflexivity|].
    intros it.
    unfold ConvolutionalTransposeLayer.__call__, in_scope.
    cbn [ConvolutionalTransposeLayer.layer_name
         ConvolutionalTransposeLayer.make_layer_name].
    rewrite layer_op_pipeline. unfold spec_pipeline.
    cbn [enabled_stages ConvolutionalTransposeLayer.with_bn
         ConvolutionalTransposeLayer.acti_func app fold_left].
    reflexivity.
  - intros c it kp. apply layer_op_pipeline.
Qed.

(** ** C6 and C7: scalar and per-axis kernel sizes and strides *)

(** C6.  With a scalar [kernel_size] and a scalar [stride], on an input
    with [n + 1] spatial dimensions, the kernel shape is the kernel size
    repeated once per spatial dimension, followed by the two channel
    counts, and the strides handed to the operator are the stride repeated
    once per spatial dimension, between the two 1s of the batch and channel
    dimensions. *)
Theorem C6_scalar_broadcast n_out k s p wb wi wr bi br nm l x (n : nat) :
  ConvTransLayer.__init__ n_out (Scalar k) (Scalar s) p wb wi wr bi br nm
  = Ok l ->
  List.length (get_shape x) = (n + 3)%nat ->
  infer_spatial_rank x = Z.of_nat (S n)
  /\ ConvTransLayer.w_full_size l x
     = Ok (repeat k (S n) ++ [n_out; last (get_shape x) 0])
  /\ ConvTransLayer.conv_strides l x = Ok ([1] ++ repeat s (S n) ++ [1]).
Proof.
  intros Hl Hrank.
  apply ConvTransLayer_init_fields in Hl as [-> _].
  split; [apply (@spatial_rank_eq x n Hrank)|].
  rewrite (@w_full_size_eq _ x n Hrank), (@conv_strides_eq _ x n Hrank).
  cbn [ConvTransLayer.kernel_size ConvTransLayer.stride
       ConvTransLayer.n_output_chns np.asarray_flatten List.length Nat.eqb].
  unfold np.array1. rewrite !concat_repeat_singleton. split; reflexivity.
Qed.

Lemma C6_scalar_broadcast_witness :
  infer_spatial_rank example_input = 3
  /\ ConvTransLayer.w_full_size example_layer example_input
     = Ok [3; 3; 3; 16; 4]
  /\ ConvTransLayer.conv_strides example_layer example_input
     = Ok [1; 1; 1; 1; 1].
Proof.
  apply (@C6_scalar_broadcast 16 3 1 "SAME" true None None None None "conv"
                              example_layer example_input 2);
    reflexivity.
Defined.

(** C7, as stated, fails on the kernel sizes [3, 3, 3] and strides
    [2, 2, 2] for an input with three spatial dimensions: the constructor
    accepts both sequences, but the kernel shape cannot be built, because
    [np.vstack] is given a 3x3 block next to 1x1 blocks, and the strides
    handed to the operator would be the sequence three times over, not the
    sequence itself. *)
Lemma C7_counterexample :
  infer_spatial_rank example_input = 3
  /\ exists l,
       ConvTransLayer.__init__ 16 (Sequence [3; 3; 3]) (Sequence [2; 2; 2])
                               "SAME" false None None None None "conv" = Ok l
       /\ ConvTransLayer.w_full_size l example_input = Raise VStackError
       /\ ConvTransLayer.conv_strides l example_input
          = Ok [1; 2; 2; 2; 2; 2; 2; 2; 2; 2; 1]
       /\ ConvTransLayer.conv_strides l example_input <> Ok [1; 2; 2; 2; 1]
       /\ ConvTransLayer.__call__ l example_input empty_graph
          = Raise VStackError.
Proof.
  split; [reflexivity|].
  eexists. split; [reflexivity|].
  split; [reflexivity|]. split; [reflexivity|].
  split; [discriminate|reflexivity].
Qed.

(** C7, amended.  The constructor accepts a sequence for [kernel_size] and
    for [stride], but the call does not use it axis by axis.  On an input
    with [n + 1] spatial dimensions a kernel-size sequence with the single
    entry [k] gives the kernel shape [k] repeated once per spatial
    dimension, followed by the channel counts, and every other kernel-size
    sequence makes [np.vstack] raise; the strides handed to the operator
    are the whole stride sequence repeated once per spatial dimension,
    between two 1s. *)
Theorem C7_sequences_are_repeated n_out ks ss p wb wi wr bi br nm l x (n : nat) :
  ConvTransLayer.__init__ n_out (Sequence ks) (Sequence ss) p wb wi wr bi br nm
  = Ok l ->
  List.length (get_shape x) = (n + 3)%nat ->
  ConvTransLayer.w_full_size l x
  = match ks with
    | [k] => Ok (repeat k (S n) ++ [n_out; last (get_shape x) 0])
    | _ => Raise VStackError
    end
  /\ ConvTransLayer.conv_strides l x
     = Ok ([1] ++ List.concat (repeat ss (S n)) ++ [1]).
Proof.
  intros Hl Hrank.
  apply ConvTransLayer_init_fields in Hl as [-> _].
  rewrite (@w_full_size_eq _ x n Hrank), (@conv_strides_eq _ x n Hrank).
  cbn [ConvTransLayer.kernel_size ConvTransLayer.stride
       ConvTransLayer.n_output_chns np.asarray_flatten].
  split; [|reflexivity].
  destruct ks as [|k [|k' ks']]; cbn [List.length Nat.eqb]; try reflexivity.
  unfold np.array1. rewrite concat_repeat_singleton. reflexivity.
Qed.

Lemma C7_sequences_are_repeated_witness :
  ConvTransLayer.w_full_size
    (ConvTransLayer.mk "conv" "SAME" 16 [3; 3; 3] [2; 2; 2] false
       (mk_wb default_w_initializer default_b_initializer) (mk_wb None None))
    example_input
  = Raise VStackError
  /\ ConvTransLayer.conv_strides
       (ConvTransLayer.mk "conv" "SAME" 16 [3; 3; 3] [2; 2; 2] false
          (mk_wb default_w_initializer default_b_initializer) (mk_wb None None))
       example_input
     = Ok [1; 2; 2; 2; 2; 2; 2; 2; 2; 2; 1].
Proof.
  apply (@C7_sequences_are_repeated
           16 [3; 3; 3] [2; 2; 2] "SAME" false None None None None "conv"
           _ example_input 2);
    reflexivity.
Defined.

(** ** C8: the bias parameter *)

(** C8.  On a first call that meets [config_ok]: without bias the layer
    creates the kernel variable only and returns the node of the
    transposed convolution as it is; with bias it creates, after the
    kernel, exactly one further variable, named "b", of shape
    [[n_output_chns]], and returns the bias addition of the node and that
    variable. *)
Theorem C8_bias_parameter self x g :
  config_ok self x = true ->
  fresh (scope g ++ [ConvTransLayer.name self]) g = true ->
  exists t g',
    ConvTransLayer.__call__ self x g = Ok (t, g')
    /\ if ConvTransLayer.with_bias self
       then variables g'
            = variables g ++ [kernel_variable self x g; bias_variable self g]
            /\ var_shape (bias_variable self g)
               = [ConvTransLayer.n_output_chns self]
            /\ last (var_name (bias_variable self g)) "" = "b"
            /\ t = BiasAdd (conv_node self x g)
                           (ReadVariable (bias_variable self g)) "add_bias"
       else variables g' = variables g ++ [kernel_variable self x g]
            /\ t = conv_node self x g.
Proof.
  intros Hc Hf.
  rewrite (ConvTransLayer_first_call _ _ _ Hc Hf).
  eexists. eexists. split; [reflexivity|].
  destruct (ConvTransLayer.with_bias self); cbn [variables].
  - repeat split. unfold bias_variable. cbn [var_name]. apply last_last.
  - split; reflexivity.
Qed.

Lemma C8_bias_parameter_witness :
  exists t g',
    ConvTransLayer.__call__ example_layer example_input empty_graph
    = Ok (t, g')
    /\ variables g'
       = [mk_var ["conv"; "w"] [3; 3; 3; 16; 4] default_w_initializer None;
          mk_var ["conv"; "b"] [16] default_b_initializer None]
    /\ t = BiasAdd (conv_node example_layer example_input empty_graph)
                   (ReadVariable
                      (mk_var ["conv"; "b"] [16] default_b_initializer None))
                   "add_bias".
Proof.
  destruct (@C8_bias_parameter example_layer example_input empty_graph
                               eq_refl eq_refl)
    as (t & g' & Hcall & Hv & _ & _ & Ht).
  exists t, g'. split; [exact Hcall|]. split; [exact Hv|exact Ht].
Defined.

(** ** C9: what the constructor of the primitive layer checks *)

(** C9.  Once the padding is supported, the constructor of the primitive
    layer succeeds for every other argument and stores the values as they
    are; a negative channel count or a negative scalar kernel size is met
    only by the call, which then always fails. *)
Theorem C9_constructor_checks_padding_only n k s p wb wi wr bi br nm :
  Str.mem (Str.upper p) SUPPORTED_PADDING = true ->
  exists l,
    ConvTransLayer.__init__ n k s p wb wi wr bi br nm = Ok l
    /\ ConvTransLayer.n_output_chns l = n
    /\ ConvTransLayer.kernel_size l = np.asarray_flatten k
    /\ ConvTransLayer.stride l = np.asarray_flatten s
    /\ ConvTransLayer.with_bias l = wb
    /\ ConvTransLayer.regularizers l = mk_wb wr br
    /\ (forall x g, n < 0 -> is_ok (ConvTransLayer.__call__ l x g) = false)
    /\ (forall x g z, k = Scalar z -> z < 0 ->
                      is_ok (ConvTransLayer.__call__ l x g) = false).
Proof.
  intros Hp.
  pose proof (ConvTransLayer_init_ok_iff n k s p wb wi wr bi br nm) as Hok.
  rewrite Hp in Hok.
  destruct (ConvTransLayer.__init__ n k s p wb wi wr bi br nm) as [l|e] eqn:E;
    [|discriminate].
  exists l. split; [reflexivity|].
  apply ConvTransLayer_init_fields in E as [-> _].
  cbn [ConvTransLayer.n_output_chns ConvTransLayer.kernel_size
       ConvTransLayer.stride ConvTransLayer.with_bias
       ConvTransLayer.regularizers].
  repeat (split; [reflexivity|]).
  split.
  - intros x g Hn.
    match goal with |- is_ok ?c = false => destruct c as [[t g']|e'] eqn:E end;
      [|reflexivity].
    apply ConvTransLayer_call_inv in E as [E _].
    apply config_ok_inv in E as (_ & _ & _ & H0 & _).
    cbn [ConvTransLayer.n_output_chns] in H0. lia.
  - intros x g z -> Hz.
    match goal with |- is_ok ?c = false => destruct c as [[t g']|e'] eqn:E end;
      [|reflexivity].
    apply ConvTransLayer_call_inv in E as [E _].
    apply config_ok_inv in E as (_ & (k0 & Hk & Hk0) & _).
    cbn [ConvTransLayer.kernel_size np.asarray_flatten] in Hk.
    injection Hk as <-. lia.
Qed.

Lemma C9_constructor_checks_padding_only_witness :
  exists l,
    ConvTransLayer.__init__ (-4) (Scalar 0) (Scalar (-1)) "Valid" true
      (Some (UserInitializer "init")) (Some (UserRegularizer "l2"))
      None None "" = Ok l
    /\ ConvTransLayer.n_output_chns l = -4
    /\ ConvTransLayer.kernel_size l = [0]
    /\ ConvTransLayer.stride l = [-1]
    /\ is_ok (ConvTransLayer.__call__ l example_input empty_graph) = false.
Proof.
  destruct (@C9_constructor_checks_padding_only
              (-4) (Scalar 0) (Scalar (-1)) "Valid" true
              (Some (UserInitializer "init")) (Some (UserRegularizer "l2"))
              None None "" eq_refl)
    as (l & Hl & Hn & Hk & Hs & _ & _ & Hcall & _).
  exists l. repeat (split; [assumption|]).
  apply Hcall. reflexivity.
Defined.

(** ** C10: which regulariser goes where *)

(** The node a stage puts on top of a tensor. *)
Definition stage_node (c : ConvolutionalTransposeLayer.t) (s : Stage)
           (t : Tensor) : Tensor :=
  match s with
  | Normalisation is_training =>
      BNOp (ConvolutionalTransposeLayer.bn_layer c) t is_training
  | Activation f =>
      ActiOp (ConvolutionalTransposeLayer.acti_layer c f) t None
  | Dropout p =>
      ActiOp ConvolutionalTransposeLayer.dropout_layer t (Some p)
  end.

Lemma run_stage_inv cat c s t g t' g' :
  run_stage cat c s t g = Ok (t', g') -> t' = stage_node c s t /\ g' = g.
Proof.
  destruct g as [sc vs].
  destruct s; unfold run_stage, BNLayer_call, ActiLayer_call, in_scope,
              ret, raise; cbn [scope variables].
  - intros H; injection H as <- <-. split; reflexivity.
  - destruct (cat _); intros H; [|discriminate].
    injection H as <- <-. split; reflexivity.
  - destruct (cat _); intros H; [|discriminate].
    injection H as <- <-. split; reflexivity.
Qed.

Lemma stages_inv cat c stages :
  forall (m0 : M Tensor) g t g',
    fold_left (fun m s => t <- m ;; run_stage cat c s t) stages m0 g
    = Ok (t, g') ->
    exists t0,
      m0 g = Ok (t0, g')
      /\ t = fold_left (fun t s => stage_node c s t) stages t0.
Proof.
  induction stages as [|s stages IH]; intros m0 g t g' H.
  - exists t. split; [exact H|reflexivity].
  - cbn [fold_left] in H. apply IH in H as (t1 & H & ->).
    apply bind_inv in H as (t0 & g1 & Hm & Hs).
    apply run_stage_inv in Hs as [-> ->].
    exists t0. split; [exact Hm|reflexivity].
Qed.

(** C10.  In every call of the composite layer that returns a tensor, the
    primitive layer was constructed with both regularisers, weight and
    bias; the tensor returned is the output of that primitive layer under
    the nodes of the stages that are switched on; and the normalisation
    layer and the activation layer among them were constructed with the
    weight regulariser, the dropout layer with none. *)
Theorem C10_regularizers_passed cat c x it kp g t g' :
  ConvolutionalTransposeLayer.__call__ cat c x it kp g = Ok (t, g') ->
  exists l t0 g1,
    ConvolutionalTransposeLayer.conv_trans_layer c = Ok l
    /\ at_w (ConvTransLayer.regularizers l)
       = at_w (ConvolutionalTransposeLayer.regularizers c)
    /\ at_b (ConvTransLayer.regularizers l)
       = at_b (ConvolutionalTransposeLayer.regularizers c)
    /\ ConvTransLayer.__call__ l x
         (mk_graph (scope g ++ [ConvolutionalTransposeLayer.layer_name c])
                   (variables g))
       = Ok (t0, g1)
    /\ t = fold_left (fun t s => stage_node c s t) (enabled_stages c it kp) t0
    /\ bn_regularizer (ConvolutionalTransposeLayer.bn_layer c)
       = at_w (ConvolutionalTransposeLayer.regularizers c)
    /\ (forall f,
          al_regularizer (ConvolutionalTransposeLayer.acti_layer c f)
          = at_w (ConvolutionalTransposeLayer.regularizers c))
    /\ al_regularizer ConvolutionalTransposeLayer.dropout_layer = None.
Proof.
  unfold ConvolutionalTransposeLayer.__call__. intros H.
  apply in_scope_inv in H as (g1 & H & _).
  rewrite layer_op_pipeline in H. unfold spec_pipeline in H.
  apply stages_inv in H as (t0 & H & ->).
  apply bind_inv in H as (l & g2 & Hl & Hcall).
  apply lift_inv in Hl as [Hl ->].
  exists l, t0, g1. split; [exact Hl|].
  unfold ConvolutionalTransposeLayer.conv_trans_layer in Hl.
  apply ConvTransLayer_init_fields in Hl as [-> _].
  repeat split; try reflexivity. exact Hcall.
Qed.

Definition example_composite : ConvolutionalTransposeLayer.t :=
  ConvolutionalTransposeLayer.mk
    (Some "relu") true "conv_trans_bn_relu" 16 (Scalar 3) (Scalar 1) "SAME" true
    ConvolutionalTransposeLayer.default_moving_decay
    ConvolutionalTransposeLayer.default_eps
    (mk_wb default_w_initializer default_b_initializer)
    (mk_wb (Some (UserRegularizer "l2")) (Some (UserRegularizer "l1"))).

Lemma C10_regularizers_passed_witness :
  exists t g' l t0,
    ConvolutionalTransposeLayer.__call__
      (fun _ => true) example_composite example_input (Some true)
      (Some (1 # 2)%Q) empty_graph = Ok (t, g')
    /\ ConvolutionalTransposeLayer.conv_trans_layer example_composite = Ok l
    /\ ConvTransLayer.regularizers l
       = mk_wb (Some (UserRegularizer "l2")) (Some (UserRegularizer "l1"))
    /\ t = ActiOp ConvolutionalTransposeLayer.dropout_layer
             (ActiOp (ConvolutionalTransposeLayer.acti_layer
                        example_composite "relu")
                (BNOp (ConvolutionalTransposeLayer.bn_layer example_composite)
                      t0 (Some true))
                None)
             (Some (1 # 2)%Q)
    /\ bn_regularizer (ConvolutionalTransposeLayer.bn_layer example_composite)
       = Some (UserRegularizer "l2")
    /\ al_regularizer
         (ConvolutionalTransposeLayer.acti_layer example_composite "relu")
       = Some (UserRegularizer "l2").
Proof.
  assert (H : { r | ConvolutionalTransposeLayer.__call__
                      (fun _ => true) example_composite example_input
                      (Some true) (Some (1 # 2)%Q) empty_graph = Ok r }).
  { eexists. vm_compute. reflexivity. }
  destruct H as [[t g'] H].
  destruct (C10_regularizers_passed _ _ _ _ _ _ H)
    as (l & t0 & g1 & Hl & Hw & Hb & _ & Ht & Hbn & Hacti & _).
  exists t, g', l, t0.
  split; [exact H|]. split; [exact Hl|].
  split.
  { destruct (ConvTransLayer.regularizers l) as [rw rb].
    cbn [at_w at_b] in Hw, Hb. rewrite Hw, Hb. reflexivity. }
  split; [exact Ht|]. split; [exact Hbn|apply Hacti].
Defined.

(** The example composite layer is the one its constructor builds. *)
Example example_composite_init :
  ConvolutionalTransposeLayer.__init__
    16 (Scalar 3) (Scalar 1) "SAME" true true (Some "relu")
    None (Some (UserRegularizer "l2")) None (Some (UserRegularizer "l1"))
    ConvolutionalTransposeLayer.default_moving_decay
    ConvolutionalTransposeLayer.default_eps
    ConvolutionalTransposeLayer.default_name
  = Ok example_composite.
Proof. reflexivity. Qed.

(** The example primitive layer is the one its constructor builds. *)
Example example_layer_init :
  ConvTransLayer.__init__ 16 ConvTransLayer.default_kernel_size
                          ConvTransLayer.default_stride
                          ConvTransLayer.default_padding true
                          None None None None ConvTransLayer.default_name
  = Ok example_layer.
Proof. reflexivity. Qed.

(* ================================================================== *)
(** * Further properties of the two layers *)

(** ** The padding stored by the constructor *)

Lemma mem_supported_padding p :
  Str.mem p SUPPORTED_PADDING = true -> p = "SAME" \/ p = "VALID".
Proof.
  unfold SUPPORTED_PADDING. cbn [Str.mem].
  destruct (String.eqb p "SAME") eqn:E1.
  - intros _. left. apply String.eqb_eq, E1.
  - destruct (String.eqb p "VALID") eqn:E2; [|discriminate].
    intros _. right. apply String.eqb_eq, E2.
Qed.

(** X1.  The constructor of the primitive layer is insensitive to the case
    of the padding: a layer that is constructed stores the upper-cased
    padding, which is exactly "SAME" or "VALID", the same layer is obtained
    from the upper-cased string, and the padding stored always passes the
    padding check of the operator, so that a constructed layer never fails
    on its padding when it is called. *)
Theorem X1_padding_case_insensitive n k s p wb wi wr bi br nm l :
  ConvTransLayer.__init__ n k s p wb wi wr bi br nm = Ok l ->
  ConvTransLayer.padding l = Str.upper p
  /\ (ConvTransLayer.padding l = "SAME" \/ ConvTransLayer.padding l = "VALID")
  /\ ConvTransLayer.__init__ n k s (Str.upper p) wb wi wr bi br nm = Ok l
  /\ Str.mem (ConvTransLayer.padding l) tf.SUPPORTED_PADDING = true.
Proof.
  intros H.
  apply ConvTransLayer_init_fields in H as [-> Hp].
  cbn [ConvTransLayer.padding].
  split; [reflexivity|].
  split; [apply mem_supported_padding, Hp|].
  split.
  - unfold ConvTransLayer.__init__, look_up_operations.
    destruct (mem_supported_padding _ Hp) as [E|E]; rewrite E; reflexivity.
  - apply supported_padding_tf, Hp.
Qed.

Lemma X1_padding_case_insensitive_witness :
  ConvTransLayer.padding
    (ConvTransLayer.mk "conv" "VALID" 8 [3] [1] false
       (mk_wb default_w_initializer default_b_initializer) (mk_wb None None))
  = Str.upper "vAlid"
  /\ ConvTransLayer.__init__ 8 (Scalar 3) (Scalar 1) (Str.upper "vAlid") false
                             None None None None "conv"
     = Ok (ConvTransLayer.mk "conv" "VALID" 8 [3] [1] false
             (mk_wb default_w_initializer default_b_initializer)
             (mk_wb None None)).
Proof.
  destruct (@X1_padding_case_insensitive
              8 (Scalar 3) (Scalar 1) "vAlid" false None None None None "conv"
              _ eq_refl) as (H1 & _ & H3 & _).
  split; [exact H1|exact H3].
Defined.

(** ** What a call does to the store *)

Lemma get_variable_store nm shape init reg g t g' :
  tf.get_variable nm shape init reg g = Ok (t, g') ->
  scope g' = scope g
  /\ (variables g' = variables g
      \/ variables g' = variables g ++ [mk_var (scope g ++ [nm]) shape init reg]).
Proof.
  unfold tf.get_variable.
  destruct (existsb _ shape); [discriminate|].
  destruct (tf.lookup_variable _ g) as [v|].
  - destruct (tf.shape_eqb (var_shape v) shape); [|discriminate].
    intros H; injection H as <- <-. split; [reflexivity|left; reflexivity].
  - intros H; injection H as <- <-. split; [reflexivity|right; reflexivity].
Qed.

(** X2.  A call of the primitive layer that returns leaves the current
    scope as it was, keeps every variable of the store in place, and adds
    at most the variable "w" and, with bias, the variable "b", both named
    under the scope of the layer; without bias it adds at most one
    variable.  This holds for every call, first or later. *)
Theorem X2_call_extends_store self x g t g' :
  ConvTransLayer.__call__ self x g = Ok (t, g') ->
  scope g' = scope g
  /\ exists new,
       variables g' = variables g ++ new
       /\ (List.length new <= if ConvTransLayer.with_bias self then 2 else 1)%nat
       /\ Forall (fun v =>
                    var_name v = scope g ++ [ConvTransLayer.name self; "w"]
                    \/ (ConvTransLayer.with_bias self = true
                        /\ var_name v
                           = scope g ++ [ConvTransLayer.name self; "b"]))
                 new.
Proof.
  unfold ConvTransLayer.__call__. intros H.
  apply in_scope_inv in H as (g1 & H & ->).
  split; [reflexivity|]. cbn [variables].
  unfold ConvTransLayer.layer_op in H.
  apply bind_inv in H as (wfs & ga & Hwfs & H).
  apply lift_inv in Hwfs as [_ ->].
  apply bind_inv in H as (st & gb & Hst & H).
  apply lift_inv in Hst as [_ ->].
  apply bind_inv in H as (ker & gc & Hker & H).
  apply get_variable_store in Hker as (Hsc & Hker).
  cbn [scope variables] in Hsc, Hker.
  apply bind_inv in H as (os & gd & Hos & H).
  apply lift_inv in Hos as [_ ->].
  apply bind_inv in H as (ot & ge & Hot & H).
  apply lift_inv in Hot as [_ ->].
  assert (Hw : exists new1,
             variables gc = variables g ++ new1
             /\ (List.length new1 <= 1)%nat
             /\ Forall (fun v => var_name v
                                 = scope g ++ [ConvTransLayer.name self; "w"])
                       new1).
  { destruct Hker as [E|E].
    - exists []. rewrite E, app_nil_r. repeat split; [simpl; lia|constructor].
    - eexists. split; [exact E|]. split; [simpl; lia|].
      constructor; [|constructor]. cbn [var_name].
      rewrite <- app_assoc. reflexivity. }
  destruct Hw as (new1 & Hv1 & Hl1 & Hf1).
  destruct (ConvTransLayer.with_bias self); cbn [negb] in H.
  - apply bind_inv in H as (bt & gf & Hb & H).
    apply lift_inv in H as [_ ->].
    apply get_variable_store in Hb as (_ & Hb).
    destruct Hb as [E|E].
    + exists new1. rewrite E. split; [exact Hv1|]. split; [lia|].
      eapply Forall_impl; [|exact Hf1]. intros v Hv. left. exact Hv.
    + eexists (new1 ++ [_]). rewrite E, Hv1, <- app_assoc.
      split; [reflexivity|]. split; [rewrite length_app; simpl; lia|].
      apply Forall_app. split.
      * eapply Forall_impl; [|exact Hf1]. intros v Hv. left. exact Hv.
      * constructor; [|constructor]. right. split; [reflexivity|].
        cbn [var_name]. rewrite Hsc. cbn [scope].
        rewrite <- app_assoc. reflexivity.
  - unfold ret in H. injection H as _ <-.
    exists new1. split; [exact Hv1|]. split; [exact Hl1|].
    eapply Forall_impl; [|exact Hf1]. intros v Hv. left. exact Hv.
Qed.

Lemma X2_call_extends_store_witness :
  exists t g' new,
    ConvTransLayer.__call__ example_layer example_input empty_graph
    = Ok (t, g')
    /\ scope g' = []
    /\ variables g' = [] ++ new
    /\ (List.length new <= 2)%nat.
Proof.
  assert (H : { r | ConvTransLayer.__call__ example_layer example_input
                                            empty_graph = Ok r }).
  { eexists. vm_compute. reflexivity. }
  destruct H as [[t g'] H].
  destruct (X2_call_extends_store _ _ _ H) as (Hs & new & Hv & Hl & _).
  exists t, g', new. split; [exact H|]. split; [exact Hs|].
  split; [exact Hv|exact Hl].
Defined.

(** ** Calling a layer again *)

Lemma find_app_none {A} (f : A -> bool) l l' :
  find f l = None -> find f (l ++ l') = find f l'.
Proof.
  induction l as [|a l IH]; simpl; [reflexivity|].
  destruct (f a); [discriminate|exact IH].
Qed.

Lemma shape_eqb_eq s t : tf.shape_eqb s t = true <-> s = t.
Proof.
  split.
  - revert t. induction s as [|a s IH]; intros [|b t] H; simpl in H;
      try discriminate; [reflexivity|].
    apply andb_true_iff in H as [H1 H2]. apply Z.eqb_eq in H1.
    subst. f_equal. apply IH, H2.
  - intros ->. apply shape_eqb_refl.
Qed.

Lemma get_variable_existing nm shape init reg g v :
  existsb (fun d => d <? 0) shape = false ->
  tf.lookup_variable (scope g ++ [nm]) g = Some v ->
  tf.get_variable nm shape init reg g
  = if tf.shape_eqb (var_shape v) shape
    then Ok (ReadVariable v, g)
    else Raise (FrameworkError "get_variable").
Proof. unfold tf.get_variable; intros -> ->; reflexivity. Qed.

(** The store after a first call: the variables of the layer are found
    under their names. *)
Definition after_first_call (self : ConvTransLayer.t) (x : Tensor) (g : Graph)
  : Graph :=
  mk_graph (scope g)
           (variables g ++ kernel_variable self x g
              :: (if ConvTransLayer.with_bias self
                  then [bias_variable self g] else [])).

Lemma lookup_kernel_after self x g :
  fresh (scope g ++ [ConvTransLayer.name self]) g = true ->
  find (fun v => tf.path_eqb (var_name v)
                             ((scope g ++ [ConvTransLayer.name self]) ++ ["w"]))
       (variables (after_first_call self x g))
  = Some (kernel_variable self x g).
Proof.
  unfold fresh, tf.lookup_variable. intros Hf.
  destruct (find _ (variables g)) eqn:Hw; [discriminate|].
  unfold after_first_call. cbn [variables].
  rewrite (find_app_none _ _ _ Hw). cbn [find kernel_variable var_name].
  rewrite path_eqb_refl. reflexivity.
Qed.

Lemma lookup_bias_after self x g :
  fresh (scope g ++ [ConvTransLayer.name self]) g = true ->
  ConvTransLayer.with_bias self = true ->
  find (fun v => tf.path_eqb (var_name v)
                             ((scope g ++ [ConvTransLayer.name self]) ++ ["b"]))
       (variables (after_first_call self x g))
  = Some (bias_variable self g).
Proof.
  unfold fresh, tf.lookup_variable. intros Hf Hb.
  destruct (find _ (variables g)) eqn:Hw; [discriminate|].
  destruct (find (fun v => tf.path_eqb (var_name v)
                     ((scope g ++ [ConvTransLayer.name self]) ++ ["b"]))
                 (variables g)) eqn:Hbb; [discriminate|].
  unfold after_first_call. rewrite Hb. cbn [variables].
  rewrite (find_app_none _ _ _ Hbb).
  cbn [find kernel_variable bias_variable var_name].
  rewrite path_eqb_app_prefix. cbn [tf.path_eqb String.eqb Ascii.eqb Bool.eqb andb].
  rewrite path_eqb_refl. reflexivity.
Qed.

Lemma kernel_shape_nonneg self x k :
  ConvTransLayer.kernel_size self = [k] -> 0 <= k ->
  0 <= ConvTransLayer.n_output_chns self -> 0 <= last (get_shape x) 0 ->
  existsb (fun d => d <? 0)
          (List.concat (repeat (ConvTransLayer.kernel_size self) 3)
           ++ [ConvTransLayer.n_output_chns self; last (get_shape x) 0])
  = false.
Proof.
  intros -> Hk Hn Hc. simpl.
  repeat match goal with
         | |- context [?a <? 0] =>
             replace (a <? 0) with false by (symmetry; apply Z.ltb_ge; lia)
         end.
  reflexivity.
Qed.

Lemma operator_accepts self x g :
  config_ok self x = true ->
  tf.conv3d_transpose x (ReadVariable (kernel_variable self x g))
    (removelast (get_shape x) ++ [ConvTransLayer.n_output_chns self])
    ([1] ++ List.concat (repeat (ConvTransLayer.stride self) 3) ++ [1])
    (ConvTransLayer.padding self) "conv_trans"
  = Ok (conv_node self x g).
Proof.
  intros Hcfg.
  destruct (config_ok_inv _ _ Hcfg)
    as (Hrank & (k & Hk & Hk0) & Hs & Hn & Hc & Hp).
  destruct (length_5_inv _ Hrank) as (d0 & d1 & d2 & d3 & d4 & Hsh).
  unfold tf.conv3d_transpose, conv_node, kernel_variable. cbv zeta.
  rewrite Hsh, Hk.
  cbn [get_shape var_shape nth_error List.concat repeat app
       removelast List.length Nat.eqb negb last].
  rewrite !Z.eqb_refl. cbn [negb]. rewrite Hp. cbn [negb].
  replace (Nat.ltb _ 5) with false; [reflexivity|].
  symmetry. apply Nat.ltb_ge.
  rewrite !length_app. cbn [List.length]. lia.
Qed.

(** X3.  Variables are created once.  After a first call, a further call
    of the same layer on an input with the same number of channels finds
    the kernel, and the bias, under their names: it creates nothing, leaves
    the store as it is, and returns the operator's node over the variables
    of the first call. *)
Theorem X3_later_call_reuses_variables self x x' g :
  config_ok self x = true ->
  config_ok self x' = true ->
  fresh (scope g ++ [ConvTransLayer.name self]) g = true ->
  last (get_shape x') 0 = last (get_shape x) 0 ->
  ConvTransLayer.__call__ self x g
  = Ok (if ConvTransLayer.with_bias self
        then BiasAdd (conv_node self x g)
                     (ReadVariable (bias_variable self g)) "add_bias"
        else conv_node self x g,
        after_first_call self x g)
  /\ ConvTransLayer.__call__ self x' (after_first_call self x g)
     = Ok (if ConvTransLayer.with_bias self
           then BiasAdd (conv_node self x' g)
                        (ReadVariable (bias_variable self g)) "add_bias"
           else conv_node self x' g,
           after_first_call self x g)
  /\ kernel_variable self x' g = kernel_variable self x g.
Proof.
  intros Hcfg Hcfg' Hfresh Hlast.
  split; [apply (ConvTransLayer_first_call _ _ _ Hcfg Hfresh)|].
  assert (Hkv : kernel_variable self x' g = kernel_variable self x g)
    by (unfold kernel_variable; rewrite Hlast; reflexivity).
  split; [|exact Hkv].
  destruct (config_ok_inv _ _ Hcfg')
    as (Hrank & (k & Hk & Hk0) & Hs & Hn & Hc & Hp).
  assert (Hrank' : List.length (get_shape x') = (2 + 3)%nat) by exact Hrank.
  unfold ConvTransLayer.__call__, in_scope.
  set (g2 := after_first_call self x g).
  set (g1 := mk_graph (scope g2 ++ [ConvTransLayer.name self]) (variables g2)).
  unfold ConvTransLayer.layer_op.
  erewrite bind_ok; cycle 1.
  { apply lift_ok. rewrite (@w_full_size_eq self x' 2 Hrank').
    replace (Nat.eqb (List.length (ConvTransLayer.kernel_size self)) 1)
      with true by (rewrite Hk; reflexivity).
    reflexivity. }
  erewrite bind_ok; cycle 1.
  { apply lift_ok. apply (@conv_strides_eq self x' 2 Hrank'). }
  erewrite (@bind_ok _ _ _ _ _ (ReadVariable (kernel_variable self x' g)) g1);
    cycle 1.
  { rewrite (@get_variable_existing _ _ _ _ _ (kernel_variable self x g)).
    - rewrite Hkv. unfold kernel_variable at 1. cbn [var_shape].
      rewrite Hlast, shape_eqb_refl. reflexivity.
    - apply (kernel_shape_nonneg self x' Hk Hk0 Hn Hc).
    - unfold tf.lookup_variable, g1, g2. cbn [scope variables].
      apply (lookup_kernel_after self x g Hfresh). }
  erewrite bind_ok; cycle 1.
  { apply lift_ok. unfold ConvTransLayer.output_shape.
    apply set_last_ok. intros E. rewrite E in Hrank. discriminate. }
  erewrite (@bind_ok _ _ _ _ _ (conv_node self x' g)); cycle 1.
  { apply lift_ok. apply (operator_accepts self x' g Hcfg'). }
  destruct (ConvTransLayer.with_bias self) eqn:Hbias; cbn [negb].
  - erewrite (@bind_ok _ _ _ _ _ (ReadVariable (bias_variable self g)) g1);
      cycle 1.
    { rewrite (@get_variable_existing _ _ _ _ _ (bias_variable self g)).
      - unfold bias_variable at 1. cbn [var_shape].
        rewrite shape_eqb_refl. reflexivity.
      - simpl. replace (_ <? 0) with false by (symmetry; apply Z.ltb_ge; lia).
        reflexivity.
      - unfold tf.lookup_variable, g1, g2. cbn [scope variables].
        apply (lookup_bias_after self x g Hfresh Hbias). }
    unfold lift, tf.bias_add. cbn [get_shape var_shape bias_variable].
    unfold conv_node at 1 2. cbn [get_shape].
    destruct (length_5_inv _ Hrank) as (d0 & d1 & d2 & d3 & d4 & Hsh).
    replace (Nat.ltb _ 2) with false by (rewrite Hsh; reflexivity).
    rewrite last_last, Z.eqb_refl.
    unfold g1, g2, after_first_call. cbn [scope variables].
    rewrite Hbias. reflexivity.
  - unfold ret, g1, g2, after_first_call. cbn [scope variables].
    rewrite Hbias. reflexivity.
Qed.

(** A second input: two 4x4x4 volumes with 4 channels. *)
Definition second_input : Tensor := Placeholder "second" [2; 4; 4; 4; 4].

Lemma X3_later_call_reuses_variables_witness :
  ConvTransLayer.__call__ example_layer second_input
    (after_first_call example_layer example_input empty_graph)
  = Ok (BiasAdd (conv_node example_layer second_input empty_graph)
                (ReadVariable (bias_variable example_layer empty_graph))
                "add_bias",
        after_first_call example_layer example_input empty_graph).
Proof.
  apply (proj1 (proj2 (@X3_later_call_reuses_variables
                         example_layer example_input second_input empty_graph
                         eq_refl eq_refl eq_refl eq_refl))).
Defined.

(** X4.  The kernel is tied to the channel count of the first input.
    After a first call, a call of the same layer on an input with another
    number of channels asks for the variable "w" with another shape and is
    refused by [tf.get_variable]. *)
Theorem X4_channel_change_is_refused self x x' g :
  config_ok self x = true ->
  config_ok self x' = true ->
  fresh (scope g ++ [ConvTransLayer.name self]) g = true ->
  last (get_shape x') 0 <> last (get_shape x) 0 ->
  exists t g',
    ConvTransLayer.__call__ self x g = Ok (t, g')
    /\ ConvTransLayer.__call__ self x' g'
       = Raise (FrameworkError "get_variable").
Proof.
  intros Hcfg Hcfg' Hfresh Hlast.
  eexists. exists (after_first_call self x g).
  split; [apply (ConvTransLayer_first_call _ _ _ Hcfg Hfresh)|].
  destruct (config_ok_inv _ _ Hcfg')
    as (Hrank & (k & Hk & Hk0) & Hs & Hn & Hc & Hp).
  assert (Hrank' : List.length (get_shape x') = (2 + 3)%nat) by exact Hrank.
  unfold ConvTransLayer.__call__, in_scope.
  set (g2 := after_first_call self x g).
  set (g1 := mk_graph (scope g2 ++ [ConvTransLayer.name self]) (variables g2)).
  unfold ConvTransLayer.layer_op.
  erewrite bind_ok; cycle 1.
  { apply lift_ok. rewrite (@w_full_size_eq self x' 2 Hrank').
    replace (Nat.eqb (List.length (ConvTransLayer.kernel_size self)) 1)
      with true by (rewrite Hk; reflexivity).
    reflexivity. }
  erewrite bind_ok; cycle 1.
  { apply lift_ok. apply (@conv_strides_eq self x' 2 Hrank'). }
  erewrite bind_raise; [reflexivity|].
  rewrite (@get_variable_existing _ _ _ _ _ (kernel_variable self x g)).
  - unfold kernel_variable. cbn [var_shape].
    destruct (tf.shape_eqb _ _) eqn:E; [|reflexivity].
    apply shape_eqb_eq in E. apply app_inv_head in E.
    injection E as E. congruence.
  - apply (kernel_shape_nonneg self x' Hk Hk0 Hn Hc).
  - unfold tf.lookup_variable, g1, g2. cbn [scope variables].
    apply (lookup_kernel_after self x g Hfresh).
Qed.

(** A third input: one 8x8x8 volume with 2 channels. *)
Definition other_channels_input : Tensor := Placeholder "other" [1; 8; 8; 8; 2].

Lemma X4_channel_change_is_refused_witness :
  exists t g',
    ConvTransLayer.__call__ example_layer example_input empty_graph
    = Ok (t, g')
    /\ ConvTransLayer.__call__ example_layer other_channels_input g'
       = Raise (FrameworkError "get_variable").
Proof.
  apply (@X4_channel_change_is_refused
           example_layer example_input other_channels_input empty_graph
           eq_refl eq_refl eq_refl).
  discriminate.
Defined.

(** ** The kernel shape and the strides for every rank of input *)

(** X5.  What [layer_op] computes before it touches the graph, for an
    input of any rank.  With no dimension at all the channel count cannot
    be read; with fewer than three dimensions there is no spatial dimension
    and [np.vstack] raises; from three dimensions on the kernel shape
    exists exactly when the kernel size has one entry, and has that entry
    once per spatial dimension, then the output and the input channel
    count, in this order; the strides are the stride array once per spatial
    dimension between two 1s. *)
Theorem X5_kernel_shape_and_strides self x :
  let rank := List.length (get_shape x) in
  ConvTransLayer.w_full_size self x
  = (if Nat.eqb rank 0 then Raise IndexError
     else if Nat.leb 3 rank
               && Nat.eqb (List.length (ConvTransLayer.kernel_size self)) 1
          then Ok (List.concat (repeat (ConvTransLayer.kernel_size self)
                                       (rank - 2))
                   ++ [ConvTransLayer.n_output_chns self;
                       last (get_shape x) 0])
          else Raise VStackError)
  /\ ConvTransLayer.conv_strides self x
     = (if Nat.leb 3 rank
        then Ok ([1] ++ List.concat (repeat (ConvTransLayer.stride self)
                                            (rank - 2)) ++ [1])
        else Raise VStackError).
Proof.
  cbv zeta.
  destruct (get_shape x) as [|a [|b [|c l]]] eqn:E.
  - split; unfold ConvTransLayer.w_full_size, ConvTransLayer.conv_strides,
             ConvTransLayer.full_stride, infer_spatial_rank;
      rewrite E; reflexivity.
  - split; unfold ConvTransLayer.w_full_size, ConvTransLayer.conv_strides,
             ConvTransLayer.full_stride, infer_spatial_rank;
      rewrite E; reflexivity.
  - split; unfold ConvTransLayer.w_full_size, ConvTransLayer.conv_strides,
             ConvTransLayer.full_stride, infer_spatial_rank;
      rewrite E; reflexivity.
  - assert (Hrank : List.length (get_shape x) = (List.length l + 3)%nat)
      by (rewrite E; simpl; lia).
    rewrite <- E.
    rewrite (@w_full_size_eq self x _ Hrank), (@conv_strides_eq self x _ Hrank).
    rewrite E. cbn [List.length Nat.eqb Nat.leb andb Nat.sub].
    split; reflexivity.
Qed.

(** ** The composite layer from end to end *)

Lemma fresh_same_variables path g g1 :
  variables g1 = variables g -> fresh path g1 = fresh path g.
Proof. unfold fresh, tf.lookup_variable. intros ->. reflexivity. Qed.

Lemma conv_trans_layer_name c l :
  ConvolutionalTransposeLayer.conv_trans_layer c = Ok l ->
  ConvTransLayer.name l = "conv_trans_"
  /\ ConvTransLayer.n_output_chns l
     = ConvolutionalTransposeLayer.n_output_chns c
  /\ ConvTransLayer.with_bias l = ConvolutionalTransposeLayer.with_bias c
  /\ ConvTransLayer.initializers l = ConvolutionalTransposeLayer.initializers c
  /\ ConvTransLayer.regularizers l = ConvolutionalTransposeLayer.regularizers c
  /\ ConvTransLayer.kernel_size l
     = np.asarray_flatten (ConvolutionalTransposeLayer.kernel_size c)
  /\ ConvTransLayer.stride l
     = np.asarray_flatten (ConvolutionalTransposeLayer.stride c).
Proof.
  unfold ConvolutionalTransposeLayer.conv_trans_layer. intros H.
  apply ConvTransLayer_init_fields in H as [-> _].
  cbn [ConvTransLayer.name ConvTransLayer.n_output_chns
       ConvTransLayer.with_bias ConvTransLayer.initializers
       ConvTransLayer.regularizers ConvTransLayer.kernel_size
       ConvTransLayer.stride ConvTransLayer.or_default].
  destruct (ConvolutionalTransposeLayer.initializers c),
           (ConvolutionalTransposeLayer.regularizers c).
  repeat split; reflexivity.
Qed.

(** X6.  When a first call of the composite layer succeeds.  Once its
    primitive layer can be constructed, that is, once the padding is
    supported, the call returns a tensor exactly when the primitive layer
    accepts the input ([config_ok]), the activation function, if there is
    one, is in the catalogue of the activation layer, and, if a
    keep-probability is given, "dropout" is in that catalogue.  The
    normalisation stage and the training flag play no part in it. *)
Theorem X6_composite_call_ok_iff cat c x it kp g l :
  ConvolutionalTransposeLayer.conv_trans_layer c = Ok l ->
  fresh (scope g ++ [ConvolutionalTransposeLayer.layer_name c; "conv_trans_"]) g
  = true ->
  is_ok (ConvolutionalTransposeLayer.__call__ cat c x it kp g)
  = config_ok l x
    && match ConvolutionalTransposeLayer.acti_func c with
       | Some f => cat f
       | None => true
       end
    && match kp with
       | Some _ => cat "dropout"
       | None => true
       end.
Proof.
  intros Hl Hf.
  destruct (conv_trans_layer_name _ Hl) as (Hname & _).
  unfold ConvolutionalTransposeLayer.__call__, in_scope,
    ConvolutionalTransposeLayer.layer_op.
  set (g1 := mk_graph (scope g ++ [ConvolutionalTransposeLayer.layer_name c])
                      (variables g)).
  rewrite Hl. unfold bind at 1. unfold lift.
  assert (Hf1 : fresh (scope g1 ++ [ConvTransLayer.name l]) g1 = true).
  { rewrite Hname. unfold g1 at 1. cbn [scope]. rewrite <- app_assoc.
    rewrite (@fresh_same_variables _ g g1 eq_refl). exact Hf. }
  pose proof (@ConvTransLayer_call_ok_iff l x g1 Hf1) as Hiff.
  unfold bind at 1.
  destruct (ConvTransLayer.__call__ l x g1) as [[t0 g2]|e];
    cbn [is_ok] in Hiff; rewrite <- Hiff; [|reflexivity].
  destruct (ConvolutionalTransposeLayer.with_bn c),
           (ConvolutionalTransposeLayer.acti_func c) as [f|],
           kp as [p|];
    unfold bind, BNLayer_call, ActiLayer_call, in_scope, ret, raise;
    cbn [scope variables ConvolutionalTransposeLayer.acti_layer
         ConvolutionalTransposeLayer.dropout_layer al_func al_name andb];
    repeat match goal with
           | |- context [cat ?a] => destruct (cat a)
           end;
    reflexivity.
Qed.

Definition relu_only (f : string) : bool := String.eqb f "relu".

Lemma X6_composite_call_ok_iff_witness :
  is_ok (ConvolutionalTransposeLayer.__call__
           relu_only example_composite example_input (Some true) None
           empty_graph) = true
  /\ is_ok (ConvolutionalTransposeLayer.__call__
              relu_only example_composite example_input (Some true)
              (Some (1 # 2)%Q) empty_graph) = false.
Proof.
  split.
  - rewrite (@X6_composite_call_ok_iff
               relu_only example_composite example_input (Some true) None
               empty_graph _ eq_refl eq_refl).
    reflexivity.
  - rewrite (@X6_composite_call_ok_iff
               relu_only example_composite example_input (Some true)
               (Some (1 # 2)%Q) empty_graph _ eq_refl eq_refl).
    reflexivity.
Defined.

Lemma get_shape_stages c stages t0 :
  get_shape (fold_left (fun t s => stage_node c s t) stages t0) = get_shape t0.
Proof.
  revert t0. induction stages as [|s stages IH]; intros t0; [reflexivity|].
  cbn [fold_left]. rewrite IH. destruct s; reflexivity.
Qed.

(** What a returning call of the composite layer went through. *)
Lemma Composite_call_inv cat c x it kp g t g' :
  ConvolutionalTransposeLayer.__call__ cat c x it kp g = Ok (t, g') ->
  exists l t0 g2,
    ConvolutionalTransposeLayer.conv_trans_layer c = Ok l
    /\ ConvTransLayer.__call__ l x
         (mk_graph (scope g ++ [ConvolutionalTransposeLayer.layer_name c])
                   (variables g))
       = Ok (t0, g2)
    /\ t = fold_left (fun t s => stage_node c s t) (enabled_stages c it kp) t0
    /\ g' = mk_graph (scope g) (variables g2).
Proof.
  unfold ConvolutionalTransposeLayer.__call__. intros H.
  apply in_scope_inv in H as (g1 & H & ->).
  rewrite layer_op_pipeline in H. unfold spec_pipeline in H.
  apply stages_inv in H as (t0 & H & ->).
  apply bind_inv in H as (l & g2 & Hl & Hcall).
  apply lift_inv in Hl as [Hl ->].
  exists l, t0, g1. repeat split; assumption.
Qed.

(** X7.  The static shape of what the composite layer returns.  Whatever
    stages are switched on, a call that returns had a five-dimensional
    input, and the tensor returned has the shape of the input with the
    last entry replaced by the configured number of output channels:
    normalisation, activation and dropout leave the shape alone. *)
Theorem X7_composite_output_shape cat c x it kp g t g' :
  ConvolutionalTransposeLayer.__call__ cat c x it kp g = Ok (t, g') ->
  List.length (get_shape x) = 5%nat
  /\ get_shape t
     = removelast (get_shape x)
       ++ [ConvolutionalTransposeLayer.n_output_chns c]
  /\ scope g' = scope g.
Proof.
  intros H.
  apply Composite_call_inv in H as (l & t0 & g2 & Hl & Hcall & -> & ->).
  apply ConvTransLayer_call_inv in Hcall as [Hcfg Hshape].
  destruct (conv_trans_layer_name _ Hl) as (_ & Hn & _).
  split; [apply (config_ok_inv _ _ Hcfg)|].
  split; [|reflexivity].
  rewrite get_shape_stages, Hshape, Hn. reflexivity.
Qed.

Lemma X7_composite_output_shape_witness :
  exists t g',
    ConvolutionalTransposeLayer.__call__
      (fun _ => true) example_composite example_input (Some true)
      (Some (1 # 2)%Q) empty_graph = Ok (t, g')
    /\ get_shape t = [1; 8; 8; 8; 16].
Proof.
  assert (H : { r | ConvolutionalTransposeLayer.__call__
                      (fun _ => true) example_composite example_input
                      (Some true) (Some (1 # 2)%Q) empty_graph = Ok r }).
  { eexists. vm_compute. reflexivity. }
  destruct H as [[t g'] H].
  exists t, g'. split; [exact H|].
  apply (proj1 (proj2 (X7_composite_output_shape _ _ _ _ _ _ H))).
Defined.



(** ** The name of the composite layer *)

Lemma append_assoc (a b c : string) :
  ((a ++ b) ++ c)%string = (a ++ (b ++ c))%string.
Proof. induction a as [|ch a IH]; simpl; [reflexivity|rewrite IH; reflexivity]. Qed.

Lemma length_append (a b : string) :
  String.length (a ++ b) = (String.length a + String.length b)%nat.
Proof. induction a as [|ch a IH]; simpl; [reflexivity|rewrite IH; reflexivity]. Qed.

Lemma append_inv_head (a b c : string) :
  (a ++ b)%string = (a ++ c)%string -> b = c.
Proof.
  induction a as [|ch a IH]; simpl; intros H; [exact H|].
  injection H as H. apply IH, H.
Qed.

Lemma prefix_append (a b : string) : String.prefix a (a ++ b) = true.
Proof.
  induction a as [|ch a IH]; simpl.
  - destruct b; reflexivity.
  - destruct (ascii_dec ch ch) as [_|N]; [exact IH|congruence].
Qed.

(** The suffix the constructor appends to the name. *)
Definition name_suffix (with_bn : bool) (acti_func : option string) : string :=
  ((if with_bn then "_bn" else "")
   ++ match acti_func with
      | Some f => "_" ++ f
      | None => ""
      end)%string.

Lemma make_layer_name_suffix nm bn af :
  ConvolutionalTransposeLayer.make_layer_name nm bn af
  = (nm ++ name_suffix bn af)%string.
Proof.
  unfold ConvolutionalTransposeLayer.make_layer_name, name_suffix.
  destruct bn, af as [f|]; cbn [append];
    repeat rewrite append_assoc; try reflexivity.
  - induction nm as [|ch nm IH]; simpl; [reflexivity|rewrite <- IH; reflexivity].
Qed.

(** X9.  The name of a composite layer begins with the name given to the
    constructor and grows by three characters for normalisation and by one
    more than the length of the activation name for an activation.  It
    does not tell the stages apart: normalisation with the activation [f]
    and no normalisation with an activation called "bn_" followed by [f]
    give the same name, and so do normalisation alone and an activation
    called "bn" alone. *)
Theorem X9_layer_name nm bn af f :
  String.prefix nm (ConvolutionalTransposeLayer.make_layer_name nm bn af) = true
  /\ String.length (ConvolutionalTransposeLayer.make_layer_name nm bn af)
     = (String.length nm + (if bn then 3 else 0)
        + match af with
          | Some a => 1 + String.length a
          | None => 0
          end)%nat
  /\ ConvolutionalTransposeLayer.make_layer_name nm true (Some f)
     = ConvolutionalTransposeLayer.make_layer_name nm false
         (Some ("bn_" ++ f)%string)
  /\ ConvolutionalTransposeLayer.make_layer_name nm true None
     = ConvolutionalTransposeLayer.make_layer_name nm false (Some "bn").
Proof.
  rewrite !make_layer_name_suffix.
  split; [apply prefix_append|].
  split; [|split; reflexivity].
  rewrite length_append. unfold name_suffix.
  destruct bn, af as [a|]; cbn [append String.length]; lia.
Qed.

(** X10.  Two configurations of the composite layer with the same given
    name and the same resulting layer name agree on normalisation exactly
    when they agree on the activation function: the layer name fixes each
    of the two once the other is known. *)
Theorem X10_layer_name_determines nm bn bn' af af' :
  ConvolutionalTransposeLayer.make_layer_name nm bn af
  = ConvolutionalTransposeLayer.make_layer_name nm bn' af' ->
  bn = bn' <-> af = af'.
Proof.
  rewrite !make_layer_name_suffix. intros H.
  apply append_inv_head in H. unfold name_suffix in H.
  split.
  - intros <-.
    apply append_inv_head in H.
    destruct af as [a|], af' as [a'|]; simpl in H;
      try discriminate; [|reflexivity].
    injection H as ->. reflexivity.
  - intros <-.
    apply (f_equal String.length) in H. rewrite !length_append in H.
    destruct bn, bn'; simpl in H; try reflexivity; lia.
Qed.

Lemma X10_layer_name_determines_witness :
  ConvolutionalTransposeLayer.make_layer_name "conv_trans" true None
  = ConvolutionalTransposeLayer.make_layer_name "conv_trans" false (Some "bn")
  /\ (true = false <-> None = Some "bn").
Proof.
  split; [reflexivity|].
  apply (@X10_layer_name_determines "conv_trans" true false None (Some "bn")).
  reflexivity.
Defined.

(** ** The default weight initialiser *)

(** A 64-bit signed integer, the element type of [np.prod] on a list of
    Python ints, with its wrap-around. *)
Definition wrap64 (z : Z) : Z := (z + 2 ^ 63) mod 2 ^ 64 - 2 ^ 63.

(** [np.prod(l)] on a list of ints. *)
Definition np_prod (l : list Z) : Z :=
  fold_left (fun acc d => wrap64 (acc * d)) l 1.

(** The divisor [np.prod(shape[:-1])] under the square root of the
    standard deviation [np.sqrt(2.0 / np.prod(shape[:-1]))] that
    [default_w_initializer] draws the kernel with. *)
Definition default_w_initializer_divisor (shape : list Z) : Z :=
  np_prod (removelast shape).

Lemma wrap64_small z : - 2 ^ 63 <= z < 2 ^ 63 -> wrap64 z = z.
Proof. intros H. unfold wrap64. rewrite Z.mod_small; lia. Qed.

Lemma wrap64_mul_l a b : wrap64 (wrap64 a * b) = wrap64 (a * b).
Proof.
  unfold wrap64.
  assert (E : (a + 2 ^ 63) mod 2 ^ 64 - 2 ^ 63
              = a - 2 ^ 64 * ((a + 2 ^ 63) / 2 ^ 64)).
  { rewrite Z.mod_eq by lia. lia. }
  rewrite E.
  replace ((a - 2 ^ 64 * ((a + 2 ^ 63) / 2 ^ 64)) * b + 2 ^ 63)
    with (a * b + 2 ^ 63 + (- ((a + 2 ^ 63) / 2 ^ 64) * b) * 2 ^ 64) by ring.
  rewrite Z_mod_plus_full. reflexivity.
Qed.

Lemma np_prod_from acc l :
  fold_left (fun acc d => wrap64 (acc * d)) l (wrap64 acc)
  = wrap64 (fold_left Z.mul l acc).
Proof.
  revert acc. induction l as [|d l IH]; intros acc; [reflexivity|].
  cbn [fold_left]. rewrite wrap64_mul_l. apply IH.
Qed.

Lemma np_prod_wrap l : np_prod l = wrap64 (fold_left Z.mul l 1).
Proof.
  unfold np_prod. rewrite <- np_prod_from.
  rewrite (@wrap64_small 1) by lia. reflexivity.
Qed.

(** X11.  The default weight initialiser scales by the output channels.
    For the kernel that the primitive layer creates, with the scalar kernel
    size [k], the divisor in the standard deviation of
    [default_w_initializer] is [k * k * k * n_output_chns], as long as
    that product is a 64-bit integer: the kernel volume times the number of
    output channels, whatever the number of input channels. *)
Theorem X11_default_initializer_divisor self x g k :
  ConvTransLayer.kernel_size self = [k] ->
  - 2 ^ 63 <= k * k * k * ConvTransLayer.n_output_chns self < 2 ^ 63 ->
  default_w_initializer_divisor (var_shape (kernel_variable self x g))
  = k * k * k * ConvTransLayer.n_output_chns self.
Proof.
  intros Hk Hr.
  unfold default_w_initializer_divisor, kernel_variable. cbn [var_shape].
  rewrite Hk. cbn [repeat List.concat app removelast].
  rewrite np_prod_wrap. cbn [fold_left].
  rewrite wrap64_small; [ring|].
  replace (1 * k * k * k * ConvTransLayer.n_output_chns self)
    with (k * k * k * ConvTransLayer.n_output_chns self) by ring.
  exact Hr.
Qed.

Lemma X11_default_initializer_divisor_witness :
  default_w_initializer_divisor
    (var_shape (kernel_variable example_layer example_input empty_graph))
  = 3 * 3 * 3 * 16.
Proof.
  apply (@X11_default_initializer_divisor
           example_layer example_input empty_graph 3 eq_refl).
  cbn. lia.
Defined.

(** ** When the requested output shape can be evaluated *)

Lemma same_length_restored d s :
  0 <= d -> 1 <= s ->
  (tf.conv_output_length d 0 s "SAME" =? d) = (s =? 1) || (d <=? 1).
Proof.
  intros Hd Hs. unfold tf.conv_output_length. rewrite String.eqb_refl.
  destruct (Z.eq_dec s 1) as [->|Hs1].
  - replace (d + 1 - 1) with d by lia. rewrite Z.div_1_r, Z.eqb_refl.
    reflexivity.
  - replace (s =? 1) with false by (symmetry; apply Z.eqb_neq; exact Hs1).
    cbn [orb].
    destruct (Z.leb_spec d 1) as [Hle|Hgt].
    + apply Z.eqb_eq.
      assert (d = 0 \/ d = 1) as [-> | ->] by lia.
      * apply Z.div_small. lia.
      * replace (1 + s - 1) with s by lia. apply Z.div_same. lia.
    + apply Z.eqb_neq. intros E.
      assert (H : (d + s - 1) / s < d)
        by (apply Z.div_lt_upper_bound; nia).
      lia.
Qed.

Lemma same_length_kernel_irrelevant d k s :
  tf.conv_output_length d k s "SAME" = tf.conv_output_length d 0 s "SAME".
Proof. unfold tf.conv_output_length. rewrite String.eqb_refl. reflexivity. Qed.

(** X12.  The stride the layer can really be used with.  The layer asks
    the operator for the spatial lengths of the input itself.  With SAME
    padding and a scalar stride [s >= 1], the node that a call builds can
    be evaluated exactly when [s] is 1 or no spatial length of the input
    exceeds 1: a stride of 1 always works, and a larger stride never does
    on an input with a spatial length of 2 or more. *)
Theorem X12_same_padding_needs_stride_one self x g s d0 d1 d2 d3 d4 :
  config_ok self x = true ->
  ConvTransLayer.stride self = [s] -> 1 <= s ->
  ConvTransLayer.padding self = "SAME" ->
  get_shape x = [d0; d1; d2; d3; d4] ->
  0 <= d1 -> 0 <= d2 -> 0 <= d3 ->
  tf.runnable (conv_node self x g)
  = (s =? 1) || ((d1 <=? 1) && (d2 <=? 1) && (d3 <=? 1)).
Proof.
  intros Hc Hst Hs Hp Hsh H1 H2 H3.
  destruct (config_ok_inv _ _ Hc) as (_ & (k & Hk & _) & _).
  unfold conv_node, kernel_variable. rewrite Hsh, Hst, Hk, Hp.
  cbn [tf.runnable get_shape var_shape List.concat repeat app removelast
       List.length Nat.eqb hd last tf.spatial tl firstn tf.lengths_consistent].
  rewrite Hsh.
  cbn [hd tf.spatial tl removelast tf.lengths_consistent].
  rewrite !(same_length_kernel_irrelevant _ k).
  rewrite !same_length_restored by assumption.
  rewrite !Z.eqb_refl.
  replace (0 <? s) with true by (symmetry; apply Z.ltb_lt; lia).
  cbn [andb].
  destruct (s =? 1), (d1 <=? 1), (d2 <=? 1), (d3 <=? 1); reflexivity.
Qed.

Lemma X12_same_padding_needs_stride_one_witness :
  tf.runnable (conv_node example_layer example_input empty_graph) = true.
Proof.
  rewrite (@X12_same_padding_needs_stride_one
             example_layer example_input empty_graph 1 1 8 8 8 4
             eq_refl eq_refl);
    first [reflexivity | lia].
Defined.
